(** * Label Sleuth front end: side-panel controller, search navigation,
      dataset upload and category-name validation.

    A shallow embedding of the React hooks [useTogglePanel],
    [useSearchElement] and [useLoadDoc].  A hook is modelled by the values
    it keeps between renders (its [useState] cells, the slice of the Redux
    store it selects, the dependency arrays of its effects); an event
    handler is a function from the values captured by the closure of the
    last render to the next state; calls that leave the hook (dispatched
    actions, [scrollIntoView], toasts) are appended to a trace in the order
    in which the code issues them. *)

From Stdlib Require Import ZArith Ascii String.
From stdpp Require Import base decidable option list strings gmap.

Local Open Scope Z_scope.

(** ** The parts of JavaScript the hooks rely on *)

Module JS.

(** Strings are sequences of code units; [String.string] holds them. *)

(** [s.lastIndexOf(c)] for a one-character search string: the greatest
    position holding [c], or [-1]. *)
Fixpoint lastIndexOf (s : string) (c : ascii) : Z :=
  match s with
  | EmptyString => -1
  | String a s' =>
      let r := lastIndexOf s' c in
      if 0 <=? r then r + 1
      else if Ascii.eqb a c then 0 else -1
  end.

(** Clamping of a relative index as [String.prototype.slice] does it:
    a negative index counts from the end, and the result stays within
    [0 .. len]. *)
Definition clampIndex (len i : Z) : Z :=
  if i <? 0 then Z.max (len + i) 0 else Z.min i len.

(** [s.slice(b, e)]; [e = None] is the call with one argument. *)
Definition slice (s : string) (b : Z) (e : option Z) : string :=
  let len := Z.of_nat (String.length s) in
  let from := clampIndex len b in
  let to := match e with None => len | Some e => clampIndex len e end in
  substring (Z.to_nat from) (Z.to_nat (Z.max (to - from) 0)) s.

(** Truthiness of a string: only the empty string is falsy. *)
Definition truthy (s : string) : bool :=
  match s with EmptyString => false | String _ _ => true end.

(** A store value that is either [null] or a string
    (the selected category). *)
Inductive nullable : Type :=
| Null
| Str (s : string).

Definition truthyN (v : nullable) : bool :=
  match v with Null => false | Str s => truthy s end.

(** The string all of whose code units but the last are kept. *)
Fixpoint dropLast (s : string) : string :=
  match s with
  | EmptyString => EmptyString
  | String a EmptyString => EmptyString
  | String a s' => String a (dropLast s')
  end.

(** Occurrence of a code unit in a string. *)
Fixpoint occurs (c : ascii) (s : string) : bool :=
  match s with
  | EmptyString => false
  | String a s' => Ascii.eqb a c || occurs c s'
  end.

End JS.

(** ** useTogglePanel *)

Module TogglePanel.

(** The panel identifiers imported from [const]. *)
Inductive Panel : Type :=
| SEARCH
| RCMD
| POS_PREDICTIONS
| POS_ELEMENTS
| DISAGREE_ELEMENTS
| SUSPICIOUS_ELEMENTS
| CONTRADICTIVE_ELEMENTS.

#[global] Instance Panel_eq_dec : EqDecision Panel.
Proof. solve_decision. Defined.

(** The seven [useState(false)] cells. *)
Record Flags : Type := mkFlags {
  toggleSearchPanel : bool;
  toggleRCMDPanel : bool;
  togglePosPredPanel : bool;
  togglePosElemPanel : bool;
  toggleDisagreeElemPanel : bool;
  toggleSuspiciousElemPanel : bool;
  toggleContrElemPanel : bool
}.

#[global] Instance Flags_eq_dec : EqDecision Flags.
Proof. solve_decision. Defined.

Definition noPanel : Flags := mkFlags false false false false false false false.

(** Which effect bodies have run, in order (instrumentation only). *)
Inductive EffectRun : Type :=
| AutoActivate (queueLength : nat)
| SyncOpen (value : bool).

#[global] Instance EffectRun_eq_dec : EqDecision EffectRun.
Proof. solve_decision. Defined.

(** Everything the hook reads or writes. *)
Record Controller : Type := mkController {
  flags : Flags;                 (* the seven state cells *)
  activePanel : option Panel;    (* state.workspace.activePanel *)
  queueLength : nat;             (* state.workspace.elementsToLabel.length *)
  isOpen : bool;                 (* the host's [open] cell, written by setOpen *)
  inputMounted : bool;           (* textInput.current is not null *)
  inputFocused : bool;           (* textInput.current.focus() was called *)
  lengthDeps : option nat;       (* dependency array of the first effect *)
  flagDeps : option Flags;       (* dependency array of the second effect *)
  effectLog : list EffectRun
}.

#[global] Instance Controller_eq_dec : EqDecision Controller.
Proof. solve_decision. Defined.

(** *** State setters *)

Definition withFlags (f : Flags -> Flags) (c : Controller) : Controller :=
  mkController (f (flags c)) (activePanel c) (queueLength c) (isOpen c)
    (inputMounted c) (inputFocused c) (lengthDeps c) (flagDeps c) (effectLog c).

Definition setToggleSearchPanel (b : bool) : Controller -> Controller :=
  withFlags (fun f => mkFlags b (toggleRCMDPanel f) (togglePosPredPanel f)
    (togglePosElemPanel f) (toggleDisagreeElemPanel f)
    (toggleSuspiciousElemPanel f) (toggleContrElemPanel f)).

Definition setToggleRCMDPanel (b : bool) : Controller -> Controller :=
  withFlags (fun f => mkFlags (toggleSearchPanel f) b (togglePosPredPanel f)
    (togglePosElemPanel f) (toggleDisagreeElemPanel f)
    (toggleSuspiciousElemPanel f) (toggleContrElemPanel f)).

Definition setTogglePosPredPanel (b : bool) : Controller -> Controller :=
  withFlags (fun f => mkFlags (toggleSearchPanel f) (toggleRCMDPanel f) b
    (togglePosElemPanel f) (toggleDisagreeElemPanel f)
    (toggleSuspiciousElemPanel f) (toggleContrElemPanel f)).

Definition setTogglePosElemPanel (b : bool) : Controller -> Controller :=
  withFlags (fun f => mkFlags (toggleSearchPanel f) (toggleRCMDPanel f)
    (togglePosPredPanel f) b (toggleDisagreeElemPanel f)
    (toggleSuspiciousElemPanel f) (toggleContrElemPanel f)).

Definition setToggleDisagreeElemPanel (b : bool) : Controller -> Controller :=
  withFlags (fun f => mkFlags (toggleSearchPanel f) (toggleRCMDPanel f)
    (togglePosPredPanel f) (togglePosElemPanel f) b
    (toggleSuspiciousElemPanel f) (toggleContrElemPanel f)).

Definition setToggleSuspiciousElemPanel (b : bool) : Controller -> Controller :=
  withFlags (fun f => mkFlags (toggleSearchPanel f) (toggleRCMDPanel f)
    (togglePosPredPanel f) (togglePosElemPanel f)
    (toggleDisagreeElemPanel f) b (toggleContrElemPanel f)).

Definition setToggleContrElemPanel (b : bool) : Controller -> Controller :=
  withFlags (fun f => mkFlags (toggleSearchPanel f) (toggleRCMDPanel f)
    (togglePosPredPanel f) (togglePosElemPanel f)
    (toggleDisagreeElemPanel f) (toggleSuspiciousElemPanel f) b).

Definition setOpen (b : bool) (c : Controller) : Controller :=
  mkController (flags c) (activePanel c) (queueLength c) b
    (inputMounted c) (inputFocused c) (lengthDeps c) (flagDeps c) (effectLog c).

(** Modelled from the spec: the reducer behind [setActivePanel] (DataSlice
    is not among the sources); it "sets the global active-panel identifier". *)
Definition setActivePanel (p : Panel) (c : Controller) : Controller :=
  mkController (flags c) (Some p) (queueLength c) (isOpen c)
    (inputMounted c) (inputFocused c) (lengthDeps c) (flagDeps c) (effectLog c).

(** [if (textInput.current) textInput.current.focus()] *)
Definition focusInput (c : Controller) : Controller :=
  if inputMounted c
  then mkController (flags c) (activePanel c) (queueLength c) (isOpen c)
         (inputMounted c) true (lengthDeps c) (flagDeps c) (effectLog c)
  else c.

Definition logEffect (e : EffectRun) (c : Controller) : Controller :=
  mkController (flags c) (activePanel c) (queueLength c) (isOpen c)
    (inputMounted c) (inputFocused c) (lengthDeps c) (flagDeps c)
    (effectLog c ++ [e]).

Definition setQueueLength (n : nat) (c : Controller) : Controller :=
  mkController (flags c) (activePanel c) n (isOpen c)
    (inputMounted c) (inputFocused c) (lengthDeps c) (flagDeps c) (effectLog c).

(** The ref is attached while the search input is on the page. *)
Definition setInputMounted (b : bool) (c : Controller) : Controller :=
  mkController (flags c) (activePanel c) (queueLength c) (isOpen c)
    b (inputFocused c) (lengthDeps c) (flagDeps c) (effectLog c).

Definition commitDeps (n : nat) (f : Flags) (c : Controller) : Controller :=
  mkController (flags c) (activePanel c) (queueLength c) (isOpen c)
    (inputMounted c) (inputFocused c) (Some n) (Some f) (effectLog c).

(** The statements of a handler body, run top to bottom. *)
Definition block (stmts : list (Controller -> Controller)) (c : Controller) : Controller :=
  fold_left (fun c stmt => stmt c) stmts c.

(** *** The activation handlers

    [cur] holds the flag values captured by the closure: those of the
    render that created the handler.  The setters overwrite the cells, the
    last write to a cell wins. *)

Definition activateSearchPanel (cur : Flags) : Controller -> Controller :=
  block [
    focusInput;
    setActivePanel SEARCH;
    setToggleSearchPanel (negb (toggleSearchPanel cur));
    setTogglePosPredPanel false;
    setToggleRCMDPanel false;
    setTogglePosElemPanel false;
    setToggleDisagreeElemPanel false;
    setToggleSuspiciousElemPanel false;
    setToggleContrElemPanel false
  ].

Definition activateRecToLabelPanel (cur : Flags) : Controller -> Controller :=
  block [
    setActivePanel RCMD;
    setToggleSearchPanel false;
    setTogglePosPredPanel false;
    setTogglePosElemPanel false;
    setToggleDisagreeElemPanel false;
    setToggleSuspiciousElemPanel false;
    setToggleContrElemPanel false;
    setToggleRCMDPanel (negb (toggleRCMDPanel cur))
  ].

Definition activatePosPredLabelPanel (cur : Flags) : Controller -> Controller :=
  block [
    setActivePanel POS_PREDICTIONS;
    setToggleSearchPanel false;
    setToggleRCMDPanel false;
    setTogglePosElemPanel false;
    setToggleDisagreeElemPanel false;
    setToggleSuspiciousElemPanel false;
    setToggleContrElemPanel false;
    setTogglePosPredPanel (negb (togglePosPredPanel cur))
  ].

Definition activatePosElemLabelPanel (cur : Flags) : Controller -> Controller :=
  block [
    setActivePanel POS_ELEMENTS;
    setToggleSearchPanel false;
    setToggleRCMDPanel false;
    setTogglePosElemPanel false;
    setTogglePosPredPanel false;
    setToggleDisagreeElemPanel false;
    setToggleSuspiciousElemPanel false;
    setToggleContrElemPanel false;
    setTogglePosElemPanel (negb (togglePosElemPanel cur))
  ].

Definition activateDisagreeElemLabelPanel (cur : Flags) : Controller -> Controller :=
  block [
    setActivePanel DISAGREE_ELEMENTS;
    setToggleSearchPanel false;
    setToggleRCMDPanel false;
    setTogglePosElemPanel false;
    setTogglePosPredPanel false;
    setTogglePosElemPanel false;
    setToggleSuspiciousElemPanel false;
    setToggleContrElemPanel false;
    setToggleDisagreeElemPanel (negb (toggleDisagreeElemPanel cur))
  ].

Definition activateSuspiciousElemLabelPanel (cur : Flags) : Controller -> Controller :=
  block [
    setActivePanel SUSPICIOUS_ELEMENTS;
    setToggleSearchPanel false;
    setToggleRCMDPanel false;
    setTogglePosElemPanel false;
    setTogglePosPredPanel false;
    setTogglePosElemPanel false;
    setToggleDisagreeElemPanel false;
    setToggleContrElemPanel false;
    setToggleSuspiciousElemPanel (negb (toggleSuspiciousElemPanel cur))
  ].

Definition activateContrElemLabelPanel (cur : Flags) : Controller -> Controller :=
  block [
    setActivePanel CONTRADICTIVE_ELEMENTS;
    setToggleSearchPanel false;
    setToggleRCMDPanel false;
    setTogglePosElemPanel false;
    setTogglePosPredPanel false;
    setTogglePosElemPanel false;
    setToggleDisagreeElemPanel false;
    setToggleSuspiciousElemPanel false;
    setToggleContrElemPanel (negb (toggleContrElemPanel cur))
  ].

(** The handler the hook returns for a panel. *)
Definition activate (p : Panel) : Flags -> Controller -> Controller :=
  match p with
  | SEARCH => activateSearchPanel
  | RCMD => activateRecToLabelPanel
  | POS_PREDICTIONS => activatePosPredLabelPanel
  | POS_ELEMENTS => activatePosElemLabelPanel
  | DISAGREE_ELEMENTS => activateDisagreeElemLabelPanel
  | SUSPICIOUS_ELEMENTS => activateSuspiciousElemLabelPanel
  | CONTRADICTIVE_ELEMENTS => activateContrElemLabelPanel
  end.

(** The cell a panel's handler toggles. *)
Definition flagOf (p : Panel) (f : Flags) : bool :=
  match p with
  | SEARCH => toggleSearchPanel f
  | RCMD => toggleRCMDPanel f
  | POS_PREDICTIONS => togglePosPredPanel f
  | POS_ELEMENTS => togglePosElemPanel f
  | DISAGREE_ELEMENTS => toggleDisagreeElemPanel f
  | SUSPICIOUS_ELEMENTS => toggleSuspiciousElemPanel f
  | CONTRADICTIVE_ELEMENTS => toggleContrElemPanel f
  end.

Definition allPanels : list Panel :=
  [SEARCH; RCMD; POS_PREDICTIONS; POS_ELEMENTS; DISAGREE_ELEMENTS;
   SUSPICIOUS_ELEMENTS; CONTRADICTIVE_ELEMENTS].

(** Number of cells that hold [true]. *)
Definition openCount (f : Flags) : nat :=
  length (List.filter (fun p => flagOf p f) allPanels).

(** *** The two effects *)

(** Body of the effect with dependency array [[elementsToLabel.length]]. *)
Definition autoActivateEffect (cur : Flags) (c : Controller) : Controller :=
  let c := logEffect (AutoActivate (queueLength c)) c in
  if Nat.eqb (queueLength c) 0
  then activateSearchPanel cur c
  else activateRecToLabelPanel cur c.

(** Body of the effect whose dependency array lists the seven cells. *)
Definition syncOpenEffect (cur : Flags) (c : Controller) : Controller :=
  if toggleSearchPanel cur
     || toggleRCMDPanel cur
     || togglePosPredPanel cur
     || togglePosElemPanel cur
     || toggleDisagreeElemPanel cur
     || toggleSuspiciousElemPanel cur
     || toggleContrElemPanel cur
  then logEffect (SyncOpen true) (setOpen true c)
  else logEffect (SyncOpen false) (setOpen false c).

(** An effect runs after the first render and after every render at which
    an entry of its dependency array differs from the previous render's. *)
Definition depsChanged {A} `{EqDecision A} (prev : option A) (now : A) : bool :=
  match prev with
  | None => true
  | Some p => negb (bool_decide (p = now))
  end.

(** One render followed by its effects, in declaration order.  Both effect
    closures see the cells as this render saw them. *)
Definition render (c : Controller) : Controller :=
  let cur := flags c in
  let n := queueLength c in
  let c1 := if depsChanged (lengthDeps c) n then autoActivateEffect cur c else c in
  let c2 := if depsChanged (flagDeps c) cur then syncOpenEffect cur c1 else c1 in
  commitDeps n cur c2.

(** State updates made by effects schedule another render; rendering stops
    when a render changes nothing. *)
Fixpoint settle (fuel : nat) (c : Controller) : Controller :=
  match fuel with
  | O => c
  | S k => let c' := render c in
           if bool_decide (c' = c) then c else settle k c'
  end.

Definition renderBudget : nat := 4.

(** What can happen to a mounted controller. *)
Inductive Event : Type :=
| Click (p : Panel)
| QueueChanged (n : nat)
| RefChanged (mounted : bool).

Definition step (e : Event) (c : Controller) : Controller :=
  match e with
  | Click p => settle renderBudget (activate p (flags c) c)
  | QueueChanged n => settle renderBudget (setQueueLength n c)
  | RefChanged b => settle renderBudget (setInputMounted b c)
  end.

Definition run (es : list Event) (c : Controller) : Controller :=
  fold_left (fun c e => step e c) es c.

(** The hook before its first render: every cell [false], the host's
    [open] cell [false], no effect has run. *)
Definition unmounted (n : nat) (mounted : bool) : Controller :=
  mkController noPanel None n false mounted false None None [].

Definition mount (n : nat) (mounted : bool) : Controller :=
  settle renderBudget (unmounted n mounted).

(** Number of runs of the auto-activation effect so far. *)
Definition isAutoRun (e : EffectRun) : bool :=
  match e with AutoActivate _ => true | SyncOpen _ => false end.

Definition autoRuns (c : Controller) : nat :=
  length (List.filter isAutoRun (effectLog c)).

(** Some cell holds [true]. *)
Definition anyOpen (f : Flags) : bool :=
  existsb (fun p => flagOf p f) allPanels.

(** The cells with exactly the cell of [p] set. *)
Definition only (p : Panel) : Flags :=
  mkFlags (bool_decide (p = SEARCH)) (bool_decide (p = RCMD))
    (bool_decide (p = POS_PREDICTIONS)) (bool_decide (p = POS_ELEMENTS))
    (bool_decide (p = DISAGREE_ELEMENTS)) (bool_decide (p = SUSPICIOUS_ELEMENTS))
    (bool_decide (p = CONTRADICTIVE_ELEMENTS)).

(** The state the controller rests in between events. *)
Definition quiet (c : Controller) : Prop :=
  lengthDeps c = Some (queueLength c) /\ flagDeps c = Some (flags c).

(** [isOpen] holds the disjunction of the cells as last listed in the
    dependency array of the second effect. *)
Definition openSynced (c : Controller) : Prop :=
  match flagDeps c with
  | None => True
  | Some f => isOpen c = anyOpen f
  end.

(** The invariant of every state reached from a mount. *)
Definition synced (c : Controller) : Prop :=
  quiet c /\ isOpen c = anyOpen (flags c).

End TogglePanel.

(** ** useSearchElement *)

Module SearchElement.

(** The actions of [DataSlice] the hook dispatches.  The thunk is always
    called with [switchStatus: 'switch']. *)
Inductive Action : Type :=
| setSearchedIndex (index : string)
| setIsDocLoaded (loaded : bool)
| setFocusedState (index : string)
| fetchCertainDocument (docid id : string).

(** What leaves the hook, in the order it happens. *)
Inductive Event : Type :=
| Dispatch (a : Action)
| ScrollIntoView (elementId : string)
| Fulfilled (docid : string).

(** A dispatched fetch whose promise has not settled yet, with the [index]
    its [then] callback has captured. *)
Record Request : Type := mkRequest {
  reqDocid : string;
  reqId : string;
  reqIndex : string
}.

Record State : Type := mkState {
  curDocName : string;           (* state.workspace.curDocName *)
  curCategory : JS.nullable;     (* state.workspace.curCategory *)
  isDocLoaded : bool;            (* state.workspace.isDocLoaded *)
  focusedIndex : string;         (* state.workspace.focusedIndex *)
  searchedIndex : string;        (* state.workspace.searchedIndex *)
  isIsSearchActive : bool;       (* the hook's own cell *)
  dom : gset string;             (* ids of the elements of the rendered document *)
  inFlight : list Request;
  trace : list Event
}.

Definition setIsSearchActive (b : bool) (st : State) : State :=
  mkState (curDocName st) (curCategory st) (isDocLoaded st) (focusedIndex st)
    (searchedIndex st) b (dom st) (inFlight st) (trace st).

Definition emit (e : Event) (st : State) : State :=
  mkState (curDocName st) (curCategory st) (isDocLoaded st) (focusedIndex st)
    (searchedIndex st) (isIsSearchActive st) (dom st) (inFlight st)
    (trace st ++ [e]).

(** Modelled from the spec: the reducers of [DataSlice], which is not among
    the sources: "records the parsed index as the current searched index",
    "marks document-not-loaded", "marks the element as focused", "marks
    document-loaded".  Dispatching the thunk changes nothing at once. *)
Definition reduce (a : Action) (st : State) : State :=
  match a with
  | setSearchedIndex i =>
      mkState (curDocName st) (curCategory st) (isDocLoaded st) (focusedIndex st)
        i (isIsSearchActive st) (dom st) (inFlight st) (trace st)
  | setIsDocLoaded b =>
      mkState (curDocName st) (curCategory st) b (focusedIndex st)
        (searchedIndex st) (isIsSearchActive st) (dom st) (inFlight st) (trace st)
  | setFocusedState i =>
      mkState (curDocName st) (curCategory st) (isDocLoaded st) i
        (searchedIndex st) (isIsSearchActive st) (dom st) (inFlight st) (trace st)
  | fetchCertainDocument _ _ => st
  end.

Definition dispatch (a : Action) (st : State) : State :=
  reduce a (emit (Dispatch a) st).

(** [.then(callback)] on the promise [dispatch] returned. *)
Definition thenCallback (r : Request) (st : State) : State :=
  mkState (curDocName st) (curCategory st) (isDocLoaded st) (focusedIndex st)
    (searchedIndex st) (isIsSearchActive st) (dom st) (inFlight st ++ [r])
    (trace st).

(** [document.getElementById]: the element, or [null]. *)
Definition getElementById (id : string) (d : gset string) : option string :=
  if decide (id ∈ d) then Some id else None.

(** [element && element.scrollIntoView({behavior: "smooth", block: "start"})] *)
Definition scrollIntoElementView (element : option string) (st : State) : State :=
  match element with
  | Some id => emit (ScrollIntoView id) st
  | None => st
  end.

(** The effect that performs the pending scroll.  One entry of its
    dependency array, [scrollIntoElementView], is a new closure at every
    render, so the body runs after every render. *)
Definition scrollEffect (st : State) : State :=
  if isIsSearchActive st && isDocLoaded st then
    let element :=
      if JS.truthyN (curCategory st)
      then getElementById ("L" +:+ focusedIndex st) (dom st)
      else getElementById ("L" +:+ searchedIndex st) (dom st) in
    let st := scrollIntoElementView element st in
    setIsSearchActive false st
  else st.

Definition render (st : State) : State := scrollEffect st.

(** The first four lines of [handleSearchPanelClick]: the pair
    [(docid, index)] cut out of the clicked identifier. *)
Definition parseId (id : string) : string * string :=
  let lastIndex := JS.lastIndexOf id "-"%char in
  let docid := JS.slice id 0 (Some lastIndex) in
  let index := JS.slice id (lastIndex + 1) None in
  (docid, index).

(** [id] is [e.target.parentNode.parentNode.id]. *)
Definition handleSearchPanelClick (id : string) (st0 : State) : State :=
  let '(docid, index) := parseId id in
  let st := dispatch (setSearchedIndex index) st0 in
  let st := setIsSearchActive true st in
  let element := getElementById ("L" +:+ index) (dom st) in
  let st := scrollIntoElementView element st in
  if negb (String.eqb docid (curDocName st0)) then
    let st := dispatch (setIsDocLoaded false) st in
    let st := dispatch (fetchCertainDocument docid id) st in
    thenCallback (mkRequest docid id index) st
  else
    dispatch (setFocusedState index) st.

(** A click: the handler, then the render its updates cause. *)
Definition click (id : string) (st : State) : State :=
  render (handleSearchPanelClick id st).

(** Modelled from the spec: what the fulfilled thunk does to the store and
    the page ([DataSlice] and the document view are not among the sources):
    the fetched document becomes the current one and its elements, whose
    ids are [newDom], replace those of the previous document. *)
Definition documentArrived (docid : string) (newDom : gset string) (st : State) : State :=
  emit (Fulfilled docid)
    (mkState docid (curCategory st) (isDocLoaded st) (focusedIndex st)
       (searchedIndex st) (isIsSearchActive st) newDom (inFlight st) (trace st)).

(** The [then] callback of request [k] runs.  Outside an event handler the
    two dispatches are rendered one by one unless React batches them. *)
Definition fetchSettled (batched : bool) (k : nat) (newDom : gset string)
    (st : State) : State :=
  match inFlight st !! k with
  | None => st
  | Some r =>
      let st := mkState (curDocName st) (curCategory st) (isDocLoaded st)
                  (focusedIndex st) (searchedIndex st) (isIsSearchActive st)
                  (dom st) (delete k (inFlight st)) (trace st) in
      let st := documentArrived (reqDocid r) newDom st in
      let st := dispatch (setFocusedState (reqIndex r)) st in
      let st := if batched then st else render st in
      let st := dispatch (setIsDocLoaded true) st in
      render st
  end.

(** The events [st'] has recorded beyond those of [st]. *)
Definition since (st st' : State) : list Event :=
  drop (length (trace st)) (trace st').

(** No [scrollIntoView] before the first [setIsDocLoaded(true)]. *)
Fixpoint scrollsOnlyAfterReload (reloaded : bool) (t : list Event) : bool :=
  match t with
  | [] => true
  | Dispatch (setIsDocLoaded true) :: t' => scrollsOnlyAfterReload true t'
  | ScrollIntoView _ :: t' => reloaded && scrollsOnlyAfterReload reloaded t'
  | _ :: t' => scrollsOnlyAfterReload reloaded t'
  end.

(** No [scrollIntoView] at a moment when the document-loaded flag, which
    starts as [loaded] and follows the dispatched actions, is [false]. *)
Fixpoint noScrollWhileUnloaded (loaded : bool) (t : list Event) : bool :=
  match t with
  | [] => true
  | Dispatch (setIsDocLoaded b) :: t' => noScrollWhileUnloaded b t'
  | ScrollIntoView _ :: t' => loaded && noScrollWhileUnloaded loaded t'
  | _ :: t' => noScrollWhileUnloaded loaded t'
  end.

(** The values the document-loaded flag is given, in order. *)
Fixpoint loadedWrites (t : list Event) : list bool :=
  match t with
  | [] => []
  | Dispatch (setIsDocLoaded b) :: t' => b :: loadedWrites t'
  | _ :: t' => loadedWrites t'
  end.


(** The event a scroll of [element] leaves, if any. *)
Definition scrollOf (element : option string) : list Event :=
  match element with Some id => [ScrollIntoView id] | None => [] end.

(** A page showing document [docA], whose third element exists, with a
    category selected and nothing pending. *)
Definition showingDocA : State :=
  mkState "docA" (JS.Str "cat") true "0" "0" false
    {[ "L0"%string; "L3"%string ]} [] [].

(** The same page with a scroll pending and no category selected. *)
Definition pendingOnDocA : State :=
  mkState "docA" JS.Null true "0" "3" true
    {[ "L0"%string; "L3"%string ]} [] [].

End SearchElement.

(** ** useLoadDoc *)

Module LoadDoc.

(** The [file] cell: [''] at first, then [e.target.files[0]], which is
    [undefined] for an empty selection. *)
Inductive FileCell : Type :=
| EmptyText
| Undefined
| File (name : string).

Definition truthyFile (f : FileCell) : bool :=
  match f with File _ => true | _ => false end.

Inductive FormValue : Type :=
| TextValue (s : string)
| FileValue (f : FileCell).

(** [FormData]: the appended fields, in order. *)
Definition FormData : Type := list (string * FormValue).

Inductive Event : Type :=
| Toast (message : string)
| AddDocuments (formData : FormData)
| UploadSettled (formData : FormData)
| GetDatasetsAPI.

Record State : Type := mkState {
  datasetName : string;
  file : FileCell;
  uploading : list FormData;     (* dispatched uploads whose promise is pending *)
  trace : list Event
}.

Definition emit (e : Event) (st : State) : State :=
  mkState (datasetName st) (file st) (uploading st) (trace st ++ [e]).

(** [const notify = (message) => toast(message)] *)
Definition notify (message : string) : State -> State := emit (Toast message).

Definition setDatasetName (s : string) (st : State) : State :=
  mkState s (file st) (uploading st) (trace st).

(** [dispatch(addDocuments(formData)).then(...)] *)
Definition dispatchAddDocuments (formData : FormData) (st : State) : State :=
  let st := emit (AddDocuments formData) st in
  mkState (datasetName st) (file st) (uploading st ++ [formData]) (trace st).

Definition handleLoadDoc (st : State) : State :=
  if negb (JS.truthy (datasetName st)) || negb (truthyFile (file st)) then
    notify "Please fill out all the required fields!" st
  else
    let formData : FormData := [] in
    let formData := formData ++ [("file"%string, FileValue (file st))] in
    let formData := formData ++ [("dataset_name"%string, TextValue (datasetName st))] in
    dispatchAddDocuments formData st.

(** The promise of upload [k] settles and its [then] callback runs. *)
Definition uploadSettled (k : nat) (st : State) : State :=
  match uploading st !! k with
  | None => st
  | Some formData =>
      let st := mkState (datasetName st) (file st) (delete k (uploading st))
                  (trace st) in
      let st := emit (UploadSettled formData) st in
      let st := setDatasetName "" st in
      let st := emit GetDatasetsAPI st in
      notify "The new dataset has been created" st
  end.

(** A required field is missing. *)
Definition missingField (st : State) : bool :=
  match datasetName st, file st with
  | String _ _, File _ => false
  | _, _ => true
  end.

End LoadDoc.

(** ** The create-category dialog *)

Module CategoryModal.

(** Modelled from the spec: the dialog and its validator live in the
    [Modal] component, of which only the tests are among the sources.  The
    name is "validated client-side as ASCII letters, digits, underscores,
    and spaces only, non-empty"; a rejected name shows the message below
    and the Create button stays disabled. *)
Definition allowedChar (c : ascii) : bool :=
  let n := nat_of_ascii c in
  (Nat.leb 65 n && Nat.leb n 90)
  || (Nat.leb 97 n && Nat.leb n 122)
  || (Nat.leb 48 n && Nat.leb n 57)
  || Nat.eqb n 95
  || Nat.eqb n 32.

(** Modelled from the spec: every code unit of the name is allowed. *)
Fixpoint onlyAllowed (s : string) : bool :=
  match s with
  | EmptyString => true
  | String c s' => allowedChar c && onlyAllowed s'
  end.

(** Modelled from the spec: the validator, "non-empty" and allowed
    characters only. *)
Definition validName (s : string) : bool := JS.truthy s && onlyAllowed s.

(** Modelled from the spec: the message the test of the dialog expects. *)
Definition WRONG_INPUT_NAME_BAD_CHARACTER : string :=
  "Name may only contain English characters, digits, underscores and spaces".

(** Modelled from the spec: the two cells of the dialog, the text of the
    input and the error shown under it. *)
Record Modal : Type := mkModal {
  text : string;
  categoryNameError : string
}.

(** Modelled from the spec: the dialog as it opens, with an empty input. *)
Definition opened : Modal := mkModal "" "".

(** Modelled from the spec: the change handler of the input; a non-empty
    name with a character outside the allowed ones sets the error. *)
Definition onTextChange (value : string) (m : Modal) : Modal :=
  mkModal value
    (if JS.truthy value && negb (onlyAllowed value)
     then WRONG_INPUT_NAME_BAD_CHARACTER else "").

(** Modelled from the spec: the [disabled] attribute of the Create button;
    it stays disabled for an empty name and while an error is shown. *)
Definition createDisabled (m : Modal) : bool :=
  negb (JS.truthy (text m)) || JS.truthy (categoryNameError m).

(** Modelled from the spec: the text the dialog shows under the input, if
    any. *)
Definition shownError (m : Modal) : option string :=
  if JS.truthy (categoryNameError m) then Some (categoryNameError m) else None.

Definition isLetter (c : ascii) : Prop :=
  (65 <= nat_of_ascii c <= 90)%nat \/ (97 <= nat_of_ascii c <= 122)%nat.

Definition isDigit (c : ascii) : Prop := (48 <= nat_of_ascii c <= 57)%nat.

End CategoryModal.

(** ** The Workspace component: which panel is on the page *)

Module Workspace.
Import TogglePanel.

(** The children of [PanelManager], one conditional per panel; only the
    Search panel also asks for [open]. *)
Definition panelRendered (p : Panel) (c : Controller) : bool :=
  match p with
  | SEARCH => isOpen c && bool_decide (activePanel c = Some SEARCH)
  | RCMD => bool_decide (activePanel c = Some RCMD)
  | POS_PREDICTIONS => bool_decide (activePanel c = Some POS_PREDICTIONS)
  | POS_ELEMENTS => bool_decide (activePanel c = Some POS_ELEMENTS)
  | DISAGREE_ELEMENTS => bool_decide (activePanel c = Some DISAGREE_ELEMENTS)
  | SUSPICIOUS_ELEMENTS => bool_decide (activePanel c = Some SUSPICIOUS_ELEMENTS)
  | CONTRADICTIVE_ELEMENTS =>
      bool_decide (activePanel c = Some CONTRADICTIVE_ELEMENTS)
  end.

(** Some panel is the active one, and no cell but its own is set. *)
Definition tidy (c : Controller) : Prop :=
  exists p, activePanel c = Some p /\ (flags c = noPanel \/ flags c = only p).

(** The panel the auto-activation effect picks for a queue length. *)
Definition autoPanel (n : nat) : Panel := if Nat.eqb n 0 then SEARCH else RCMD.

End Workspace.

(** ** useSearchElement: the search box *)

Module SearchInput.

#[global] Instance nullable_eq_dec : EqDecision JS.nullable.
Proof. solve_decision. Defined.

Inductive Action : Type :=
| searchKeywords (keyword : string)
| resetSearchResults.

Record State : Type := mkState {
  searchInput : string;               (* the hook's [useState("")] cell *)
  inputValue : option string;         (* [textInput.current]: null, or the
                                         value of the input element *)
  curCategory : JS.nullable;          (* state.workspace.curCategory *)
  categoryDeps : option JS.nullable;  (* dependency array of the effect *)
  trace : list Action                 (* dispatched actions, in order *)
}.

Definition setSearchInput (s : string) (st : State) : State :=
  mkState s (inputValue st) (curCategory st) (categoryDeps st) (trace st).

Definition dispatch (a : Action) (st : State) : State :=
  mkState (searchInput st) (inputValue st) (curCategory st) (categoryDeps st)
    (trace st ++ [a]).

Definition handleSearch (st : State) : State :=
  if JS.truthy (searchInput st)
  then dispatch (searchKeywords (searchInput st)) st
  else st.

Definition clearSearchInput (st : State) : State :=
  let st := setSearchInput "" st in
  let st := dispatch resetSearchResults st in
  match inputValue st with
  | Some _ =>
      mkState (searchInput st) (Some ""%string) (curCategory st)
        (categoryDeps st) (trace st)
  | None => st
  end.

(** [value] is [event.target.value]. *)
Definition handleSearchInputChange (value : string) (st : State) : State :=
  setSearchInput value st.

(** Body of the effect with dependency array [[workspace.curCategory]]. *)
Definition categoryEffect (st : State) : State :=
  if JS.truthyN (curCategory st) then handleSearch st else st.

(** One render and its effect; the effect only dispatches, so no further
    render follows. *)
Definition render (st : State) : State :=
  let st' :=
    if TogglePanel.depsChanged (categoryDeps st) (curCategory st)
    then categoryEffect st else st in
  mkState (searchInput st') (inputValue st') (curCategory st')
    (Some (curCategory st)) (trace st').

Definition setCurCategory (c : JS.nullable) (st : State) : State :=
  mkState (searchInput st) (inputValue st) c (categoryDeps st) (trace st).

Inductive Event : Type :=
| Typed (value : string)
| Cleared
| Searched
| CategoryChanged (c : JS.nullable).

Definition step (e : Event) (st : State) : State :=
  match e with
  | Typed v => render (handleSearchInputChange v st)
  | Cleared => render (clearSearchInput st)
  | Searched => render (handleSearch st)
  | CategoryChanged c => render (setCurCategory c st)
  end.

Definition run (es : list Event) (st : State) : State :=
  fold_left (fun st e => step e st) es st.

(** The hook after its first render, with the ref attached or not. *)
Definition mount (ref : option string) (category : JS.nullable) : State :=
  render (mkState "" ref category None []).

(** A dispatched keyword search carries a non-empty keyword. *)
Definition hasKeyword (a : Action) : bool :=
  match a with
  | searchKeywords k => JS.truthy k
  | resetSearchResults => true
  end.

End SearchInput.

(** ** useLoadDoc: the form as the user drives it *)

Module LoadDocFlow.
Import LoadDoc.

(** [value] is [e.target.value]. *)
Definition handleInputChange (value : string) (st : State) : State :=
  setDatasetName value st.

Definition setFile (f : FileCell) (st : State) : State :=
  mkState (datasetName st) f (uploading st) (trace st).

(** [first] is [e.target.files[0]]. *)
Definition handleFileChange (first : FileCell) (st : State) : State :=
  setFile first st.

Inductive Action : Type :=
| NameTyped (value : string)
| FileChosen (first : FileCell)
| Submitted
| Settled (k : nat).

Definition step (a : Action) (st : State) : State :=
  match a with
  | NameTyped v => handleInputChange v st
  | FileChosen f => handleFileChange f st
  | Submitted => handleLoadDoc st
  | Settled k => uploadSettled k st
  end.

Definition run (acts : list Action) (st : State) : State :=
  fold_left (fun st a => step a st) acts st.

(** The hook as it mounts: [useState('')] twice, nothing in flight. *)
Definition initial : State := mkState "" EmptyText [] [].

(** A form with a non-empty dataset name and a real file, in the order the
    handler appends the fields. *)
Definition completeForm (formData : FormData) : bool :=
  match formData with
  | [(k1, FileValue (File _)); (k2, TextValue (String _ _))] =>
      String.eqb k1 "file" && String.eqb k2 "dataset_name"
  | _ => false
  end.

Definition uploadsComplete (e : Event) : bool :=
  match e with
  | AddDocuments formData => completeForm formData
  | _ => true
  end.

Definition isUpload (e : Event) : bool :=
  match e with AddDocuments _ => true | _ => false end.

Definition isSettled (e : Event) : bool :=
  match e with UploadSettled _ => true | _ => false end.

Definition isRefresh (e : Event) : bool :=
  match e with GetDatasetsAPI => true | _ => false end.

Definition isConfirmation (e : Event) : bool :=
  match e with
  | Toast m => String.eqb m "The new dataset has been created"
  | _ => false
  end.

Definition count (f : Event -> bool) (st : State) : nat :=
  length (List.filter f (trace st)).

(** Dispatched uploads are in flight or settled; each settled upload has
    its refresh and its confirmation. *)
Definition balanced (st : State) : Prop :=
  count isUpload st = (length (uploading st) + count isSettled st)%nat
  /\ count isConfirmation st = count isSettled st
  /\ count isRefresh st = count isSettled st.

(** A form filled in with the name ["news"] and the file ["news.csv"]. *)
Definition filledForm : State := mkState "news" (File "news.csv") [] [].

End LoadDocFlow.

(** ** useSearchElement: runs of clicks, settled fetches and renders *)

Module SearchRuns.
Import SearchElement.

(** What can happen to the mounted hook: a click on a result, the settling
    of the fetch in flight at position [k] (its document having the
    elements [newDom]), or a render for any other reason. *)
Inductive Input : Type :=
| Clicked (id : string)
| Settled (batched : bool) (k : nat) (newDom : gset string)
| Rendered.

Definition step (i : Input) (st : State) : State :=
  match i with
  | Clicked id => click id st
  | Settled batched k newDom => fetchSettled batched k newDom st
  | Rendered => render st
  end.

Definition run (inputs : list Input) (st : State) : State :=
  fold_left (fun st i => step i st) inputs st.

(** The document-loaded flag after the events [t], starting from
    [loaded]. *)
Fixpoint loadedAfter (loaded : bool) (t : list Event) : bool :=
  match t with
  | [] => loaded
  | Dispatch (setIsDocLoaded b) :: t' => loadedAfter b t'
  | _ :: t' => loadedAfter loaded t'
  end.

(** The last event is the [setSearchedIndex] dispatch that opens a click
    handler; [fromHandler] answers for the empty trace. *)
Fixpoint handlerTurn (fromHandler : bool) (t : list Event) : bool :=
  match t with
  | [] => fromHandler
  | Dispatch (setSearchedIndex _) :: t' => handlerTurn true t'
  | _ :: t' => handlerTurn false t'
  end.

(** Every scroll in [t] either comes straight after the [setSearchedIndex]
    dispatch of a click handler, and so is the handler's own immediate
    scroll, or happens while the document-loaded flag is [true]. *)
Fixpoint effectScrollsGated (loaded fromHandler : bool) (t : list Event) : bool :=
  match t with
  | [] => true
  | Dispatch (setIsDocLoaded b) :: t' => effectScrollsGated b false t'
  | Dispatch (setSearchedIndex _) :: t' => effectScrollsGated loaded true t'
  | ScrollIntoView _ :: t' =>
      (fromHandler || loaded) && effectScrollsGated loaded false t'
  | _ :: t' => effectScrollsGated loaded false t'
  end.

(** [st'] continues [st]: its trace adds events to that of [st], every
    scroll among them is the immediate scroll of a click handler or happens
    while the flag is [true], and the flag it ends with is the one the
    added dispatches leave. *)
Definition continues (st st' : State) : Prop :=
  exists added,
    trace st' = trace st ++ added
    /\ (forall fromHandler,
          effectScrollsGated (isDocLoaded st) fromHandler added = true)
    /\ loadedAfter (isDocLoaded st) added = isDocLoaded st'.

End SearchRuns.

(** * Properties *)

(** ** Strings *)

Module JSFacts.
Import JS.

Lemma length_app (a b : string) :
  String.length (a +:+ b) = (String.length a + String.length b)%nat.
Proof. induction a as [|x a IH]; simpl; [reflexivity | now rewrite IH]. Qed.

Lemma lastIndexOf_lower (s : string) (c : ascii) : -1 <= lastIndexOf s c.
Proof.
  induction s as [|a s IH]; simpl; [lia|].
  destruct (Z.leb_spec 0 (lastIndexOf s c)); [lia|].
  destruct (Ascii.eqb a c); lia.
Qed.

Lemma lastIndexOf_absent (s : string) (c : ascii) :
  occurs c s = false -> lastIndexOf s c = -1.
Proof.
  induction s as [|a s IH]; simpl; [reflexivity|].
  intros H. apply orb_false_iff in H as [Ha Hs].
  rewrite (IH Hs), Ha. reflexivity.
Qed.

(** The last occurrence in [d ++ c ++ i], when [i] has none, is right
    after [d]. *)
Lemma lastIndexOf_separator (d i : string) (c : ascii) :
  occurs c i = false ->
  lastIndexOf (d +:+ String c i) c = Z.of_nat (String.length d).
Proof.
  intros Hi. induction d as [|a d IH].
  - simpl. rewrite (lastIndexOf_absent _ _ Hi). simpl.
    now rewrite Ascii.eqb_refl.
  - change (lastIndexOf (String a d +:+ String c i) c)
      with (let r := lastIndexOf (d +:+ String c i) c in
            if 0 <=? r then r + 1 else if Ascii.eqb a c then 0 else -1).
    rewrite IH. cbv zeta.
    change (String.length (String a d)) with (S (String.length d)).
    destruct (Z.leb_spec 0 (Z.of_nat (String.length d))); lia.
Qed.

Lemma substring_prefix (d x : string) :
  substring 0 (String.length d) (d +:+ x) = d.
Proof.
  induction d as [|a d IH]; simpl.
  - now destruct x.
  - now rewrite IH.
Qed.

Lemma substring_whole (s : string) : substring 0 (String.length s) s = s.
Proof. induction s as [|a s IH]; simpl; [reflexivity | now rewrite IH]. Qed.

Lemma substring_suffix (d x : string) :
  substring (String.length d) (String.length x) (d +:+ x) = x.
Proof.
  induction d as [|a d IH]; simpl; [apply substring_whole | exact IH].
Qed.

Lemma substring_dropLast (s : string) :
  substring 0 (String.length s - 1) s = dropLast s.
Proof.
  induction s as [|a s IH]; [reflexivity|].
  destruct s as [|b s]; [reflexivity|].
  replace (String.length (String a (String b s)) - 1)%nat
    with (S (String.length (String b s) - 1)) by (simpl; lia).
  change (substring 0 (S ?m) (String a ?t)) with (String a (substring 0 m t)).
  rewrite IH. reflexivity.
Qed.

Lemma clampIndex_nonneg (len i : Z) : 0 <= i -> clampIndex len i = Z.min i len.
Proof. intros H. unfold clampIndex. destruct (Z.ltb_spec i 0); [lia | reflexivity]. Qed.

Lemma clampIndex_neg (len i : Z) : i < 0 -> clampIndex len i = Z.max (len + i) 0.
Proof. intros H. unfold clampIndex. destruct (Z.ltb_spec i 0); [reflexivity | lia]. Qed.

(** [s.slice(0, -1)] drops the last code unit. *)
Lemma slice_drop_last (s : string) : slice s 0 (Some (-1)) = dropLast s.
Proof.
  unfold slice. rewrite clampIndex_nonneg, clampIndex_neg by lia.
  rewrite <- substring_dropLast. f_equal; lia.
Qed.

(** [s.slice(0)] is [s]. *)
Lemma slice_from_zero (s : string) : slice s 0 None = s.
Proof.
  unfold slice. rewrite clampIndex_nonneg by lia.
  transitivity (substring 0 (String.length s) s);
    [f_equal; lia | apply substring_whole].
Qed.

Lemma slice_before_separator (d i : string) (c : ascii) :
  slice (d +:+ String c i) 0 (Some (Z.of_nat (String.length d))) = d.
Proof.
  unfold slice. rewrite !clampIndex_nonneg by lia. rewrite length_app.
  transitivity (substring 0 (String.length d) (d +:+ String c i));
    [f_equal; lia | apply substring_prefix].
Qed.

Lemma slice_after_separator (d i : string) (c : ascii) :
  slice (d +:+ String c i) (Z.of_nat (String.length d) + 1) None = i.
Proof.
  unfold slice. rewrite clampIndex_nonneg by lia.
  replace (d +:+ String c i) with ((d +:+ String c EmptyString) +:+ i).
  - set (p := d +:+ String c EmptyString).
    assert (Hp : String.length p = S (String.length d))
      by (unfold p; rewrite length_app; simpl; lia).
    transitivity (substring (String.length p) (String.length i) (p +:+ i));
      [f_equal; rewrite ?length_app; lia | apply substring_suffix].
  - clear. induction d as [|a d IH]; [reflexivity|].
    change (String a ((d +:+ String c EmptyString) +:+ i)
            = String a (d +:+ String c i)).
    f_equal. exact IH.
Qed.

End JSFacts.

(** ** The panel controller *)

Module TogglePanelFacts.
Import TogglePanel.

Ltac unfold_handlers :=
  unfold activate, activateSearchPanel, activateRecToLabelPanel,
    activatePosPredLabelPanel, activatePosElemLabelPanel,
    activateDisagreeElemLabelPanel, activateSuspiciousElemLabelPanel,
    activateContrElemLabelPanel, block, focusInput, setActivePanel,
    setToggleSearchPanel, setToggleRCMDPanel, setTogglePosPredPanel,
    setTogglePosElemPanel, setToggleDisagreeElemPanel,
    setToggleSuspiciousElemPanel, setToggleContrElemPanel, withFlags in *.

Ltac unfold_render :=
  unfold render, autoActivateEffect, syncOpenEffect, commitDeps, logEffect,
    setOpen, depsChanged in *;
  unfold_handlers.

(** A handler writes the seven cells and nothing else that the effects
    depend on. *)
Lemma activate_frame (p : Panel) (cur : Flags) (c : Controller) :
  queueLength (activate p cur c) = queueLength c
  /\ isOpen (activate p cur c) = isOpen c
  /\ lengthDeps (activate p cur c) = lengthDeps c
  /\ flagDeps (activate p cur c) = flagDeps c
  /\ effectLog (activate p cur c) = effectLog c
  /\ activePanel (activate p cur c) = Some p.
Proof.
  destruct p; unfold_handlers; simpl; destruct (inputMounted c); simpl;
    repeat split.
Qed.

(** The cells after a handler: the handler's own cell is the negation of
    the captured value, every other cell is [false]. *)
Lemma activate_flags (p q : Panel) (cur : Flags) (c : Controller) :
  flagOf q (flags (activate p cur c))
  = bool_decide (q = p) && negb (flagOf p cur).
Proof.
  destruct p, q; unfold_handlers; simpl; destruct (inputMounted c); simpl;
    reflexivity.
Qed.

Lemma flags_ext (f g : Flags) :
  (forall q, flagOf q f = flagOf q g) -> f = g.
Proof.
  intros H. destruct f, g.
  pose proof (H SEARCH). pose proof (H RCMD). pose proof (H POS_PREDICTIONS).
  pose proof (H POS_ELEMENTS). pose proof (H DISAGREE_ELEMENTS).
  pose proof (H SUSPICIOUS_ELEMENTS). pose proof (H CONTRADICTIVE_ELEMENTS).
  simpl in *. congruence.
Qed.

Lemma flagOf_only (p q : Panel) : flagOf q (only p) = bool_decide (p = q).
Proof. destruct p, q; reflexivity. Qed.

Lemma openCount_only (p : Panel) : openCount (only p) = 1%nat.
Proof. destruct p; reflexivity. Qed.

Lemma activate_closed (p : Panel) (cur : Flags) (c : Controller) :
  flagOf p cur = true -> flags (activate p cur c) = noPanel.
Proof.
  intros H. apply flags_ext. intros q. rewrite activate_flags, H.
  rewrite andb_false_r. now destruct q.
Qed.

Lemma activate_opened (p : Panel) (cur : Flags) (c : Controller) :
  flagOf p cur = false -> flags (activate p cur c) = only p.
Proof.
  intros H. apply flags_ext. intros q. rewrite activate_flags, H, flagOf_only.
  rewrite andb_true_r. apply bool_decide_ext. split; congruence.
Qed.

(** *** What one render does *)

Lemma render_queueLength (c : Controller) :
  queueLength (render c) = queueLength c.
Proof.
  destruct c as [f a n o m fo ld fd l]. unfold_render. simpl.
  repeat case_match; reflexivity.
Qed.

Lemma render_deps (c : Controller) :
  lengthDeps (render c) = Some (queueLength c)
  /\ flagDeps (render c) = Some (flags c).
Proof. split; reflexivity. Qed.

Lemma render_inputMounted (c : Controller) :
  inputMounted (render c) = inputMounted c.
Proof.
  destruct c as [f a n o m fo ld fd l]. unfold_render. simpl.
  repeat case_match; reflexivity.
Qed.

Lemma depsChanged_same {A} `{EqDecision A} (x : A) :
  depsChanged (Some x) x = false.
Proof. unfold depsChanged. now rewrite bool_decide_eq_true_2. Qed.

(** With unchanged dependency arrays a render runs no effect. *)
Lemma render_quiet (c : Controller) :
  lengthDeps c = Some (queueLength c) ->
  flagDeps c = Some (flags c) ->
  render c = c.
Proof.
  destruct c as [f a n o m fo ld fd l]. simpl. intros -> ->.
  unfold render. cbn [lengthDeps flagDeps queueLength flags].
  rewrite !depsChanged_same. reflexivity.
Qed.

Lemma render_flags_kept (c : Controller) :
  lengthDeps c = Some (queueLength c) ->
  flags (render c) = flags c.
Proof.
  destruct c as [f a n o m fo ld fd l]. simpl. intros ->.
  unfold render. cbn [lengthDeps flagDeps queueLength flags].
  rewrite depsChanged_same.
  unfold_render. simpl. repeat case_match; reflexivity.
Qed.

Lemma render_isOpen (c : Controller) :
  isOpen (render c)
  = if depsChanged (flagDeps c) (flags c) then anyOpen (flags c) else isOpen c.
Proof.
  destruct c as [[f1 f2 f3 f4 f5 f6 f7] a n o m fo ld fd l].
  unfold render, syncOpenEffect, anyOpen. simpl.
  destruct (depsChanged fd _); simpl.
  - rewrite orb_false_r, !orb_assoc.
    destruct (f1 || f2 || f3 || f4 || f5 || f6 || f7); reflexivity.
  - unfold_render. simpl. repeat case_match; reflexivity.
Qed.

Lemma render_autoRuns (c : Controller) :
  autoRuns (render c)
  = (autoRuns c
     + if depsChanged (lengthDeps c) (queueLength c) then 1 else 0)%nat.
Proof.
  destruct c as [f a n o m fo ld fd l]. unfold autoRuns.
  unfold_render. simpl.
  repeat case_match; simpl;
    rewrite ?List.filter_app, ?length_app; simpl; lia.
Qed.

(** Two renders reach a state in which rendering changes nothing. *)
Lemma render_stable (c : Controller) :
  render (render (render c)) = render (render c).
Proof.
  apply render_quiet.
  - destruct (render_deps (render c)) as [-> _].
    now rewrite !render_queueLength.
  - destruct (render_deps (render c)) as [_ ->].
    f_equal. symmetry. apply render_flags_kept.
    destruct (render_deps c) as [-> _]. now rewrite !render_queueLength.
Qed.

(** Rendering always stops within the budget. *)
Lemma settle_two (c : Controller) :
  settle renderBudget c = render (render c).
Proof.
  unfold renderBudget. cbn [settle].
  case_bool_decide as H1; [now rewrite !H1|].
  case_bool_decide as H2; [now rewrite H2|].
  case_bool_decide as H3; [reflexivity|].
  destruct H3. apply render_stable.
Qed.

Lemma settle_quiet (c : Controller) : quiet (settle renderBudget c).
Proof.
  rewrite settle_two. split.
  - destruct (render_deps (render c)) as [-> _].
    now rewrite !render_queueLength.
  - destruct (render_deps (render c)) as [_ ->].
    f_equal. symmetry. apply render_flags_kept.
    destruct (render_deps c) as [-> _]. now rewrite !render_queueLength.
Qed.

Lemma render_open_synced (c : Controller) :
  openSynced c -> isOpen (render c) = anyOpen (flags c).
Proof.
  unfold openSynced. intros H. rewrite render_isOpen.
  unfold depsChanged. destruct (flagDeps c) as [f|]; [|reflexivity].
  case_bool_decide; simpl; congruence.
Qed.

Lemma settle_open (c : Controller) :
  openSynced c ->
  isOpen (settle renderBudget c) = anyOpen (flags (settle renderBudget c)).
Proof.
  intros H. rewrite settle_two.
  assert (H1 : isOpen (render c) = anyOpen (flags c))
    by now apply render_open_synced.
  assert (Hk : flags (render (render c)) = flags (render c)).
  { apply render_flags_kept.
    destruct (render_deps c) as [-> _]. now rewrite !render_queueLength. }
  rewrite Hk. apply render_open_synced.
  unfold openSynced. destruct (render_deps c) as [_ ->]. exact H1.
Qed.

Lemma settle_autoRuns (c : Controller) :
  autoRuns (settle renderBudget c)
  = (autoRuns c
     + if depsChanged (lengthDeps c) (queueLength c) then 1 else 0)%nat.
Proof.
  rewrite settle_two, !render_autoRuns.
  destruct (render_deps c) as [-> _]. rewrite render_queueLength.
  rewrite depsChanged_same. lia.
Qed.

Lemma step_quiet (e : Event) (c : Controller) : quiet (step e c).
Proof. destruct e; apply settle_quiet. Qed.

Lemma run_snoc (es : list Event) (e : Event) (c : Controller) :
  run (es ++ [e]) c = step e (run es c).
Proof. unfold run. now rewrite fold_left_app. Qed.

Lemma mount_quiet (n : nat) (m : bool) : quiet (mount n m).
Proof. apply settle_quiet. Qed.

Lemma run_quiet (es : list Event) (c : Controller) :
  quiet c -> quiet (run es c).
Proof.
  induction es as [|e es IH] using rev_ind; [easy|].
  intros _. rewrite run_snoc. apply step_quiet.
Qed.

Lemma synced_openSynced (c : Controller) : synced c -> openSynced c.
Proof. intros [[_ Hf] Ho]. unfold openSynced. now rewrite Hf. Qed.

Lemma mount_synced (n : nat) (m : bool) : synced (mount n m).
Proof.
  split; [apply mount_quiet|]. apply settle_open. exact I.
Qed.

Lemma step_synced (e : Event) (c : Controller) : synced c -> synced (step e c).
Proof.
  intros Hc. split; [apply step_quiet|].
  pose proof (synced_openSynced c Hc) as Ho. unfold openSynced in Ho.
  destruct e as [p|n|b]; simpl; apply settle_open; unfold openSynced.
  - destruct (activate_frame p (flags c) c) as (_ & -> & _ & -> & _). exact Ho.
  - exact Ho.
  - exact Ho.
Qed.

Lemma run_synced (es : list Event) (c : Controller) :
  synced c -> synced (run es c).
Proof.
  revert c. induction es as [|e es IH]; intros c Hc; [exact Hc|].
  simpl. apply IH, step_synced, Hc.
Qed.

End TogglePanelFacts.

Section PanelClaims.
Import TogglePanel TogglePanelFacts.

(** C1.  Whatever the seven cells hold, after the handler of panel [p] the
    cell of [p] is the negation of its former value and every other cell
    is [false]: either exactly one cell is [true], that of [p], or all
    seven are [false], and the latter happens exactly when the cell of [p]
    was [true] before the call. *)
Theorem activation_mutually_exclusive (p : Panel) (c : Controller) :
  let c' := activate p (flags c) c in
  (forall q, flagOf q (flags c')
             = bool_decide (q = p) && negb (flagOf p (flags c)))
  /\ flags c' = (if flagOf p (flags c) then noPanel else only p)
  /\ openCount (flags c') = (if flagOf p (flags c) then 0 else 1)%nat.
Proof.
  intros c'. subst c'. split; [|split].
  - intros q. apply activate_flags.
  - destruct (flagOf p (flags c)) eqn:E.
    + now apply activate_closed.
    + now apply activate_opened.
  - destruct (flagOf p (flags c)) eqn:E.
    + now rewrite activate_closed.
    + rewrite activate_opened by exact E. apply openCount_only.
Qed.

(** A click on the tab of [p] leaves the controller, once rendering has
    settled, with the cells its handler wrote. *)
Lemma click_flags (p : Panel) (c : Controller) :
  quiet c ->
  flags (step (Click p) c) = flags (activate p (flags c) c).
Proof.
  intros [Hl _]. unfold step. rewrite settle_two.
  destruct (activate_frame p (flags c) c) as (Hq & _ & Hd & _).
  rewrite render_flags_kept.
  - apply render_flags_kept. now rewrite Hd, Hq.
  - destruct (render_deps (activate p (flags c) c)) as [-> _].
    now rewrite render_queueLength.
Qed.

(** The body of the second effect writes the disjunction of the cells. *)
Lemma syncOpenEffect_isOpen (cur : Flags) (c : Controller) :
  isOpen (syncOpenEffect cur c) = anyOpen cur.
Proof.
  destruct cur as [f1 f2 f3 f4 f5 f6 f7].
  unfold syncOpenEffect, anyOpen. simpl.
  rewrite orb_false_r, !orb_assoc.
  destruct (f1 || f2 || f3 || f4 || f5 || f6 || f7); reflexivity.
Qed.

Lemma anyOpen_noPanel (f : Flags) :
  anyOpen f = negb (bool_decide (f = noPanel)).
Proof.
  destruct f as [[] [] [] [] [] [] []]; reflexivity.
Qed.

(** C8.  In every state the controller reaches from its mount, whatever
    the clicks and queue changes, the host's [open] flag is the
    disjunction of the seven cells: [true] when some cell is [true],
    [false] when all seven are [false]. *)
Theorem open_is_disjunction (n : nat) (m : bool) (es : list Event) :
  let c := run es (mount n m) in
  isOpen c = anyOpen (flags c)
  /\ isOpen c = negb (bool_decide (flags c = noPanel)).
Proof.
  intros c.
  assert (H : synced c) by apply run_synced, mount_synced.
  destruct H as [_ H]. split; [exact H|].
  rewrite H. apply anyOpen_noPanel.
Qed.

Lemma mount_eq (n : nat) (m : bool) :
  mount n m = render (render (unmounted n m)).
Proof. apply settle_two. Qed.

Lemma mount_flags (n : nat) (m : bool) :
  flags (mount n m) = only (if Nat.eqb n 0 then SEARCH else RCMD)
  /\ activePanel (mount n m) = Some (if Nat.eqb n 0 then SEARCH else RCMD).
Proof.
  rewrite mount_eq.
  assert (E : forall c, lengthDeps c = Some (queueLength c) ->
                        activePanel (render c) = activePanel c).
  { intros [f a k o i fo ld fd l]. simpl. intros ->.
    unfold render. cbn [lengthDeps flagDeps queueLength flags].
    rewrite depsChanged_same. unfold_render. simpl.
    repeat case_match; reflexivity. }
  rewrite render_flags_kept, E
    by (destruct (render_deps (unmounted n m)) as [-> _];
        now rewrite render_queueLength).
  destruct n, m; split; reflexivity.
Qed.

(** C3, as stated, fails: after a mount with an empty queue, a change of
    the queue length to 2 runs the auto-activation effect a second time,
    and the Recommendation panel replaces the Search panel. *)
Lemma auto_activation_runs_again :
  autoRuns (mount 0 false) = 1%nat
  /\ flags (mount 0 false) = only SEARCH
  /\ autoRuns (run [QueueChanged 2] (mount 0 false)) = 2%nat
  /\ flags (run [QueueChanged 2] (mount 0 false)) = only RCMD
  /\ ~ (forall n m es, autoRuns (run es (mount n m)) = autoRuns (mount n m)).
Proof.
  split; [vm_compute; reflexivity|].
  split; [vm_compute; reflexivity|].
  split; [vm_compute; reflexivity|].
  split; [vm_compute; reflexivity|].
  intros H. specialize (H 0%nat false [QueueChanged 2]).
  vm_compute in H. discriminate.
Qed.

End PanelClaims.

(** ** Search navigation *)

Module SearchElementFacts.
Import SearchElement.

Lemma since_app (st st' : State) (l : list Event) :
  trace st' = trace st ++ l -> since st st' = l.
Proof. intros H. unfold since. rewrite H. apply drop_app_length. Qed.

Lemma scrollIntoElementView_trace (el : option string) (st : State) :
  trace (scrollIntoElementView el st) = trace st ++ scrollOf el.
Proof. destruct el; simpl; [reflexivity | now rewrite app_nil_r]. Qed.

(** A scroll only adds to the trace. *)
Lemma scrollIntoElementView_eq (el : option string) (st : State) :
  scrollIntoElementView el st
  = mkState (curDocName st) (curCategory st) (isDocLoaded st)
      (focusedIndex st) (searchedIndex st) (isIsSearchActive st) (dom st)
      (inFlight st) (trace st ++ scrollOf el).
Proof.
  destruct el; simpl; [reflexivity|]. rewrite app_nil_r. now destruct st.
Qed.

(** While the document is not loaded the effect does nothing. *)
Lemma render_unloaded (st : State) : isDocLoaded st = false -> render st = st.
Proof.
  intros H. unfold render, scrollEffect. now rewrite H, andb_false_r.
Qed.

(** Without a pending scroll the effect does nothing. *)
Lemma render_idle (st : State) : isIsSearchActive st = false -> render st = st.
Proof. intros H. unfold render, scrollEffect. now rewrite H. Qed.

(** The state the handler leaves when the clicked result belongs to
    another document than the one on screen. *)
Lemma handle_other_document (id d i : string) (st : State) :
  parseId id = (d, i) ->
  d <> curDocName st ->
  handleSearchPanelClick id st
  = mkState (curDocName st) (curCategory st) false (focusedIndex st) i true
      (dom st) (inFlight st ++ [mkRequest d id i])
      (trace st
       ++ Dispatch (setSearchedIndex i)
          :: scrollOf (getElementById ("L" +:+ i) (dom st))
          ++ [Dispatch (setIsDocLoaded false);
              Dispatch (fetchCertainDocument d id)]).
Proof.
  intros Hp Hd. destruct st as [cd cc dl fi si ia dm inf tr].
  cbn [curDocName] in Hd. apply String.eqb_neq in Hd.
  unfold handleSearchPanelClick. rewrite Hp.
  cbn [curDocName]. rewrite Hd. cbn [negb].
  destruct (getElementById ("L" +:+ i) dm) as [el|] eqn:He;
    cbn; rewrite He;
    unfold thenCallback, dispatch, reduce, emit, setIsSearchActive,
      scrollIntoElementView; cbn; rewrite <- ?app_assoc; reflexivity.
Qed.

(** The state after that request has settled. *)
Lemma settled_other_document (batched : bool) (id d i : string)
    (newDom : gset string) (st : State) :
  parseId id = (d, i) ->
  d <> curDocName st ->
  fetchSettled batched (length (inFlight st)) newDom
    (handleSearchPanelClick id st)
  = mkState d (curCategory st) true i i false newDom (inFlight st)
      (trace (handleSearchPanelClick id st)
       ++ [Fulfilled d; Dispatch (setFocusedState i);
           Dispatch (setIsDocLoaded true)]
       ++ scrollOf (getElementById ("L" +:+ i) newDom)).
Proof.
  intros Hp Hd. rewrite (handle_other_document id d i st Hp Hd).
  destruct st as [cd cc dl fi si ia dm inf tr].
  unfold fetchSettled. cbn [inFlight trace curDocName curCategory dom
    focusedIndex searchedIndex isIsSearchActive isDocLoaded].
  rewrite list_lookup_middle by reflexivity.
  rewrite delete_middle, app_nil_r. cbn [reqDocid reqIndex].
  unfold documentArrived, dispatch, reduce, emit. cbn.
  assert (Hr : forall s, isDocLoaded s = false ->
                 (if batched then s else render s) = s).
  { intros s Hs. destruct batched; [reflexivity | now apply render_unloaded]. }
  rewrite Hr by reflexivity.
  unfold render, scrollEffect, setIsSearchActive, scrollIntoElementView. cbn.
  destruct (JS.truthyN cc);
    destruct (getElementById ("L" +:+ i) newDom) as [el|];
    cbn; rewrite <- ?app_assoc; cbn; rewrite ?app_nil_r; reflexivity.
Qed.

End SearchElementFacts.

Section SearchClaims.
Import SearchElement SearchElementFacts.

(** C5.  An identifier [d-i] whose part [i] after the separator contains
    no ['-'] is cut at its last ['-']: the document id is [d], the element
    index is [i], and the first thing the handler does is to record [i] as
    the searched index. *)
Theorem parse_composite_id (d i : string) (st : State) :
  JS.occurs "-" i = false ->
  let id := d +:+ "-" +:+ i in
  JS.lastIndexOf id "-" = Z.of_nat (String.length d)
  /\ parseId id = (d, i)
  /\ searchedIndex (handleSearchPanelClick id st) = i
  /\ head (since st (handleSearchPanelClick id st))
     = Some (Dispatch (setSearchedIndex i)).
Proof.
  intros Hi id.
  assert (Hl : JS.lastIndexOf id "-" = Z.of_nat (String.length d))
    by now apply JSFacts.lastIndexOf_separator.
  assert (Hp : parseId id = (d, i)).
  { unfold parseId. rewrite Hl. subst id.
    change ("-" +:+ i) with (String "-" i).
    now rewrite JSFacts.slice_before_separator, JSFacts.slice_after_separator. }
  split; [exact Hl|]. split; [exact Hp|].
  unfold handleSearchPanelClick. rewrite Hp.
  rewrite !scrollIntoElementView_eq.
  destruct (negb (String.eqb d (curDocName st)));
    (split; [reflexivity|]); unfold since; simpl;
    rewrite <- ?app_assoc; now rewrite drop_app_length.
Qed.

Lemma parse_composite_id_witness :
  JS.occurs "-" "12" = false
  /\ parseId "doc-A-12" = ("doc-A"%string, "12"%string)
  /\ searchedIndex (handleSearchPanelClick "doc-A-12" showingDocA) = "12"%string.
Proof.
  split; [reflexivity|].
  destruct (parse_composite_id "doc-A" "12" showingDocA) as (_ & Hp & Hs & _);
    [reflexivity|].
  split; [exact Hp | exact Hs].
Defined.

(** C10.  An identifier without ['-'] raises nothing: [lastIndexOf] is
    [-1], the document id is the identifier without its last code unit and
    the element index is the whole identifier. *)
Theorem parse_without_separator (id : string) :
  JS.occurs "-" id = false ->
  JS.lastIndexOf id "-" = -1
  /\ parseId id = (JS.dropLast id, id).
Proof.
  intros H.
  assert (Hl : JS.lastIndexOf id "-" = -1) by now apply JSFacts.lastIndexOf_absent.
  split; [exact Hl|]. unfold parseId. rewrite Hl.
  change (-1 + 1) with 0.
  now rewrite JSFacts.slice_drop_last, JSFacts.slice_from_zero.
Qed.

Lemma parse_without_separator_witness :
  JS.occurs "-" "docA7" = false
  /\ JS.lastIndexOf "docA7" "-" = -1
  /\ parseId "docA7" = ("docA"%string, "docA7"%string).
Proof.
  split; [reflexivity|]. apply (parse_without_separator "docA7"). reflexivity.
Defined.

(** C9.  With a scroll pending and the document loaded, the effect looks
    up the element ['L' + focusedIndex] when a category is selected and
    ['L' + searchedIndex] when none is, scrolls to it if it exists, and
    clears the pending-scroll flag in both cases. *)
Theorem pending_scroll_target (st : State) :
  isIsSearchActive st = true ->
  isDocLoaded st = true ->
  (JS.truthyN (curCategory st) = true ->
   since st (scrollEffect st)
   = scrollOf (getElementById ("L" +:+ focusedIndex st) (dom st)))
  /\ (JS.truthyN (curCategory st) = false ->
      since st (scrollEffect st)
      = scrollOf (getElementById ("L" +:+ searchedIndex st) (dom st)))
  /\ isIsSearchActive (scrollEffect st) = false.
Proof.
  intros Ha Hl. unfold scrollEffect. rewrite Ha, Hl. cbn [andb].
  rewrite scrollIntoElementView_eq. unfold setIsSearchActive. cbn.
  split; [|split]; [intros -> | intros -> |reflexivity];
    now apply since_app.
Qed.

Lemma pending_scroll_target_witness :
  isIsSearchActive pendingOnDocA = true
  /\ isDocLoaded pendingOnDocA = true
  /\ since pendingOnDocA (scrollEffect pendingOnDocA) = [ScrollIntoView "L3"]
  /\ isIsSearchActive (scrollEffect pendingOnDocA) = false.
Proof.
  split; [reflexivity|]. split; [reflexivity|].
  destruct (pending_scroll_target pendingOnDocA) as (_ & Hs & Hc);
    [reflexivity | reflexivity |].
  split; [|exact Hc]. rewrite Hs by reflexivity. vm_compute. reflexivity.
Defined.

End SearchClaims.

Section ReloadClaims.
Import SearchElement SearchElementFacts.

(** C2, as stated, fails: with document [docA] on screen, a click on the
    result [docB-3] scrolls to the element [L3] of [docA] at once, before
    the document-loaded flag is even cleared, and a second time after the
    flag has returned to [true]. *)
Lemma scroll_precedes_reload :
  isDocLoaded showingDocA = true
  /\ (parseId "docB-3").1 <> curDocName showingDocA
  /\ since showingDocA
       (fetchSettled false 0 {[ "L3"%string ]} (click "docB-3" showingDocA))
     = [Dispatch (setSearchedIndex "3"); ScrollIntoView "L3";
        Dispatch (setIsDocLoaded false);
        Dispatch (fetchCertainDocument "docB" "docB-3");
        Fulfilled "docB"; Dispatch (setFocusedState "3");
        Dispatch (setIsDocLoaded true); ScrollIntoView "L3"]
  /\ scrollsOnlyAfterReload false
       (since showingDocA
          (fetchSettled false 0 {[ "L3"%string ]} (click "docB-3" showingDocA)))
     = false.
Proof.
  split; [reflexivity|]. split; [vm_compute; discriminate|].
  split; vm_compute; reflexivity.
Qed.



End ReloadClaims.

(** ** Dataset upload *)

Section LoadDocClaims.
Import LoadDoc.

(** The condition the handler tests is that a required field is missing. *)
Lemma missingField_test (st : State) :
  negb (JS.truthy (datasetName st)) || negb (truthyFile (file st))
  = missingField st.
Proof.
  unfold missingField. destruct (datasetName st), (file st); reflexivity.
Qed.

(** C7.  With the dataset name or the file missing, [handleLoadDoc] shows
    the toast asking to fill the required fields and does nothing else: no
    upload is dispatched and no cell changes.  With both present it
    dispatches the upload of the two form fields and nothing more; the
    dataset name is reset, the dataset list refreshed and the confirmation
    shown when that upload has settled. *)
Theorem handleLoadDoc_branches (st : State) :
  let formData : FormData :=
    [("file"%string, FileValue (file st));
     ("dataset_name"%string, TextValue (datasetName st))] in
  if missingField st then
    handleLoadDoc st
    = mkState (datasetName st) (file st) (uploading st)
        (trace st ++ [Toast "Please fill out all the required fields!"])
  else
    handleLoadDoc st
    = mkState (datasetName st) (file st) (uploading st ++ [formData])
        (trace st ++ [AddDocuments formData])
    /\ uploadSettled (length (uploading st)) (handleLoadDoc st)
       = mkState "" (file st) (uploading st)
           (trace st ++ [AddDocuments formData; UploadSettled formData;
                         GetDatasetsAPI;
                         Toast "The new dataset has been created"]).
Proof.
  intros formData. unfold handleLoadDoc. rewrite missingField_test.
  destruct (missingField st); [reflexivity|].
  destruct st as [name f up tr]. cbn [datasetName file uploading trace] in *.
  unfold dispatchAddDocuments, emit. cbn.
  split; [reflexivity|].
  unfold uploadSettled. cbn [uploading].
  rewrite list_lookup_middle by reflexivity.
  rewrite delete_middle, app_nil_r.
  unfold notify, emit, setDatasetName. cbn.
  now rewrite <- !app_assoc.
Qed.

End LoadDocClaims.

(** ** Category names *)

Section CategoryClaims.
Import CategoryModal.

Lemma allowedChar_spec (c : ascii) :
  allowedChar c = true
  <-> isLetter c \/ isDigit c \/ c = "_"%char \/ c = " "%char.
Proof.
  unfold allowedChar, isLetter, isDigit.
  rewrite !orb_true_iff, !andb_true_iff, !Nat.leb_le, !Nat.eqb_eq.
  assert (Hu : nat_of_ascii c = 95%nat <-> c = "_"%char).
  { split; [|now intros ->].
    intros H. rewrite <- (ascii_nat_embedding c), H. reflexivity. }
  assert (Hs : nat_of_ascii c = 32%nat <-> c = " "%char).
  { split; [|now intros ->].
    intros H. rewrite <- (ascii_nat_embedding c), H. reflexivity. }
  rewrite Hu, Hs. tauto.
Qed.

Lemma onlyAllowed_spec (s : string) :
  onlyAllowed s = true
  <-> forall c, In c (list_ascii_of_string s) -> allowedChar c = true.
Proof.
  induction s as [|a s IH]; simpl.
  - split; [intros _ c [] | reflexivity].
  - rewrite andb_true_iff, IH. split.
    + intros [Ha Hs] c [<-|Hc]; auto.
    + intros H. split; [apply H; now left | intros c Hc; apply H; now right].
Qed.

Lemma createDisabled_onTextChange (s : string) (m : Modal) :
  createDisabled (onTextChange s m) = negb (validName s).
Proof.
  unfold createDisabled, onTextChange, validName. cbn [text categoryNameError].
  destruct s as [|a s]; [reflexivity|]. cbn [JS.truthy negb orb andb].
  destruct (onlyAllowed (String a s)); reflexivity.
Qed.

(** C6.  The validator accepts exactly the non-empty names made of ASCII
    letters, digits, underscores and spaces, and the Create button is
    enabled exactly for the names it accepts: ["test_category"] enables
    it; ["!"] shows the message about the allowed characters and leaves it
    disabled; the empty name leaves it disabled. *)
Theorem category_name_validation :
  (forall s, validName s = true
             <-> s <> EmptyString
                 /\ forall c, In c (list_ascii_of_string s) ->
                      isLetter c \/ isDigit c \/ c = "_"%char \/ c = " "%char)
  /\ (forall s m, createDisabled (onTextChange s m) = negb (validName s))
  /\ validName "test_category" = true
  /\ createDisabled (onTextChange "test_category" opened) = false
  /\ validName "!" = false
  /\ shownError (onTextChange "!" opened)
     = Some "Name may only contain English characters, digits, underscores and spaces"%string
  /\ createDisabled (onTextChange "!" opened) = true
  /\ createDisabled opened = true
  /\ createDisabled (onTextChange "" opened) = true.
Proof.
  split.
  { intros s. unfold validName. rewrite andb_true_iff, onlyAllowed_spec.
    split.
    - intros [Hs Hc]. split; [now destruct s|].
      intros c Hin. now apply allowedChar_spec, Hc.
    - intros [Hs Hc]. split; [now destruct s|].
      intros c Hin. now apply allowedChar_spec, Hc. }
  split; [exact createDisabled_onTextChange|].
  split; [vm_compute; reflexivity|].
  split; [vm_compute; reflexivity|].
  split; [vm_compute; reflexivity|].
  split; [vm_compute; reflexivity|].
  split; [vm_compute; reflexivity|].
  split; vm_compute; reflexivity.
Qed.

End CategoryClaims.

(** ** The panel controller over whole runs *)

Module PanelRunFacts.
Import TogglePanel TogglePanelFacts Workspace.

Lemma anyOpen_only (p : Panel) : anyOpen (only p) = true.
Proof. destruct p; reflexivity. Qed.

Lemma render_activePanel_kept (c : Controller) :
  lengthDeps c = Some (queueLength c) ->
  activePanel (render c) = activePanel c.
Proof.
  destruct c as [f a n o m fo ld fd l]. simpl. intros ->.
  unfold render. cbn [lengthDeps flagDeps queueLength flags].
  rewrite depsChanged_same. unfold_render. simpl.
  repeat case_match; reflexivity.
Qed.

(** A render at which the queue length differs from the recorded one calls
    the handler of [autoPanel]. *)
Lemma render_auto (c : Controller) :
  depsChanged (lengthDeps c) (queueLength c) = true ->
  flags (render c) = flags (activate (autoPanel (queueLength c)) (flags c) c)
  /\ activePanel (render c) = Some (autoPanel (queueLength c)).
Proof.
  destruct c as [f a n o m fo ld fd l].
  cbn [lengthDeps queueLength flags]. intros H.
  unfold render. cbn [lengthDeps flagDeps queueLength flags]. rewrite H.
  unfold autoPanel. destruct (Nat.eqb n 0) eqn:E;
    unfold autoActivateEffect, logEffect; cbn [queueLength]; rewrite E;
    unfold_render; simpl; repeat case_match; split; reflexivity.
Qed.

Lemma render_length_quiet (c : Controller) :
  lengthDeps (render c) = Some (queueLength (render c)).
Proof.
  destruct (render_deps c) as [-> _]. now rewrite render_queueLength.
Qed.

(** The cells and the active panel once rendering has settled. *)
Lemma settle_result (c : Controller) :
  (depsChanged (lengthDeps c) (queueLength c) = true ->
   flags (settle renderBudget c)
   = flags (activate (autoPanel (queueLength c)) (flags c) c)
   /\ activePanel (settle renderBudget c) = Some (autoPanel (queueLength c)))
  /\ (depsChanged (lengthDeps c) (queueLength c) = false ->
      flags (settle renderBudget c) = flags c
      /\ activePanel (settle renderBudget c) = activePanel c).
Proof.
  rewrite settle_two.
  rewrite (render_flags_kept (render c)) by apply render_length_quiet.
  rewrite (render_activePanel_kept (render c)) by apply render_length_quiet.
  split; intros H.
  - now apply render_auto.
  - assert (Hl : lengthDeps c = Some (queueLength c)).
    { unfold depsChanged in H. destruct (lengthDeps c) as [k|]; [|discriminate].
      apply negb_false_iff, bool_decide_eq_true in H. now subst. }
    split; [now apply render_flags_kept | now apply render_activePanel_kept].
Qed.

Lemma handler_outcome (p : Panel) (cur : Flags) (c : Controller) :
  flags (activate p cur c) = (if flagOf p cur then noPanel else only p).
Proof.
  destruct (flagOf p cur) eqn:E;
    [now apply activate_closed | now apply activate_opened].
Qed.

(** A click, with the renders it causes. *)
Lemma click_result (p : Panel) (c : Controller) :
  synced c ->
  flags (step (Click p) c) = (if flagOf p (flags c) then noPanel else only p)
  /\ isOpen (step (Click p) c) = negb (flagOf p (flags c))
  /\ activePanel (step (Click p) c) = Some p.
Proof.
  intros Hc. pose proof (step_synced (Click p) c Hc) as [_ Ho].
  destruct Hc as [[Hl _] _].
  destruct (activate_frame p (flags c) c) as (Hq & _ & Hd & _ & _ & Ha).
  destruct (settle_result (activate p (flags c) c)) as [_ Hk].
  destruct Hk as [Hf Hp].
  { rewrite Hd, Hq, Hl. apply depsChanged_same. }
  unfold step in *. rewrite Ho, Hf, Hp, handler_outcome.
  split; [reflexivity|]. split; [|exact Ha].
  destruct (flagOf p (flags c)); [reflexivity | apply anyOpen_only].
Qed.

(** A change of the queue length, with the renders it causes. *)
Lemma queue_result (n' : nat) (c : Controller) :
  synced c ->
  flags (step (QueueChanged n') c)
  = (if bool_decide (n' = queueLength c) then flags c
     else if flagOf (autoPanel n') (flags c) then noPanel
          else only (autoPanel n'))
  /\ activePanel (step (QueueChanged n') c)
     = (if bool_decide (n' = queueLength c) then activePanel c
        else Some (autoPanel n')).
Proof.
  intros [[Hl _] _].
  destruct (settle_result (setQueueLength n' c)) as [Hy Hn].
  cbn [setQueueLength lengthDeps queueLength flags activePanel] in Hy, Hn.
  rewrite Hl in Hy, Hn. unfold step.
  case_bool_decide as E.
  - subst n'. apply Hn, depsChanged_same.
  - destruct Hy as [Hf Ha].
    { unfold depsChanged. rewrite bool_decide_eq_false_2 by congruence.
      reflexivity. }
    rewrite Hf, Ha, handler_outcome. split; reflexivity.
Qed.

Lemma ref_result (b : bool) (c : Controller) :
  synced c ->
  flags (step (RefChanged b) c) = flags c
  /\ activePanel (step (RefChanged b) c) = activePanel c.
Proof.
  intros [[Hl _] _].
  destruct (settle_result (setInputMounted b c)) as [_ Hn].
  cbn [setInputMounted lengthDeps queueLength flags activePanel] in Hn.
  apply Hn. rewrite Hl. apply depsChanged_same.
Qed.

Lemma mount_tidy (n : nat) (m : bool) : tidy (mount n m).
Proof.
  destruct (mount_flags n m) as [Hf Ha].
  exists (if Nat.eqb n 0 then SEARCH else RCMD). split; [exact Ha | now right].
Qed.

Lemma step_tidy (e : Event) (c : Controller) :
  synced c -> tidy c -> tidy (step e c).
Proof.
  intros Hc Ht. destruct e as [p|n'|b].
  - destruct (click_result p c Hc) as (Hf & _ & Ha).
    exists p. split; [exact Ha|]. rewrite Hf.
    destruct (flagOf p (flags c)); [now left | now right].
  - destruct (queue_result n' c Hc) as (Hf & Ha).
    case_bool_decide.
    + destruct Ht as (p & Hp & Hfl). exists p. now rewrite Hf, Ha.
    + exists (autoPanel n'). split; [exact Ha|]. rewrite Hf.
      destruct (flagOf (autoPanel n') (flags c)); [now left | now right].
  - destruct (ref_result b c Hc) as (Hf & Ha).
    destruct Ht as (p & Hp & Hfl). exists p. now rewrite Hf, Ha.
Qed.

Lemma run_tidy (es : list Event) (c : Controller) :
  synced c -> tidy c -> tidy (run es c).
Proof.
  revert c. induction es as [|e es IH]; intros c Hc Ht; [exact Ht|].
  simpl. apply IH; [now apply step_synced | now apply step_tidy].
Qed.

Lemma reached_synced (n : nat) (m : bool) (es : list Event) :
  synced (run es (mount n m)).
Proof. apply run_synced, mount_synced. Qed.

Lemma reached_tidy (n : nat) (m : bool) (es : list Event) :
  tidy (run es (mount n m)).
Proof. apply run_tidy; [apply mount_synced | apply mount_tidy]. Qed.

(** In a synced, tidy state the seven cells are a function of [isOpen] and
    [activePanel]. *)
Lemma flags_determined (c : Controller) (q : Panel) :
  synced c -> tidy c ->
  flagOf q (flags c) = isOpen c && bool_decide (activePanel c = Some q).
Proof.
  intros [_ Ho] (p & Ha & [Hf|Hf]); rewrite Ho, Ha, Hf.
  - now destruct q.
  - rewrite anyOpen_only, flagOf_only. simpl.
    apply bool_decide_ext. split; congruence.
Qed.

Lemma openCount_tidy (c : Controller) :
  synced c -> tidy c ->
  openCount (flags c) = (if isOpen c then 1 else 0)%nat.
Proof.
  intros [_ Ho] (p & _ & [Hf|Hf]); rewrite Ho, Hf.
  - reflexivity.
  - now rewrite anyOpen_only, openCount_only.
Qed.

End PanelRunFacts.

Section PanelRunProperties.
Import TogglePanel TogglePanelFacts Workspace PanelRunFacts.

(** X1.  Mutual exclusion holds over whole runs, not only right after a
    click: in every state reached from a mount by clicks, queue changes
    and ref changes, exactly one cell is [true] when the drawer is open
    and none when it is closed. *)
Theorem at_most_one_panel_open (n : nat) (m : bool) (es : list Event) :
  let c := run es (mount n m) in
  openCount (flags c) = (if isOpen c then 1 else 0)%nat.
Proof.
  intros c. apply openCount_tidy; [apply reached_synced | apply reached_tidy].
Qed.

(** X2.  In every reached state the seven cells carry no more than
    [open] and the active-panel identifier: the cell of a panel is [true]
    exactly when the drawer is open and that panel is the active one. *)
Theorem cells_follow_active_panel
    (n : nat) (m : bool) (es : list Event) (q : Panel) :
  let c := run es (mount n m) in
  flagOf q (flags c) = isOpen c && bool_decide (activePanel c = Some q).
Proof.
  intros c. apply flags_determined; [apply reached_synced | apply reached_tidy].
Qed.

(** X3.  A click on a tab, followed by the renders it causes: if the
    panel's cell was [true] the drawer ends closed with no cell set,
    otherwise it ends open with that cell alone; the panel becomes the
    active one in both cases. *)
Theorem click_toggles_tab (n : nat) (m : bool) (es : list Event) (p : Panel) :
  let c := run es (mount n m) in
  flags (step (Click p) c) = (if flagOf p (flags c) then noPanel else only p)
  /\ isOpen (step (Click p) c) = negb (flagOf p (flags c))
  /\ activePanel (step (Click p) c) = Some p.
Proof. intros c. apply click_result, reached_synced. Qed.

(** X4.  Two clicks in a row on the same tab leave that tab's cell as it
    was and every other cell [false]: an open panel is closed and opened
    again, a closed one is opened and closed, taking with it whichever
    other panel was open. *)
Theorem double_click_same_tab
    (n : nat) (m : bool) (es : list Event) (p : Panel) :
  let c := run es (mount n m) in
  let c2 := run (es ++ [Click p; Click p]) (mount n m) in
  flags c2 = (if flagOf p (flags c) then only p else noPanel)
  /\ isOpen c2 = flagOf p (flags c).
Proof.
  intros c c2. subst c2. unfold run. rewrite fold_left_app.
  fold (run es (mount n m)). fold c. cbn [fold_left].
  pose proof (reached_synced n m es) as Hc. fold c in Hc. clearbody c.
  destruct (click_result p c Hc) as (Hf1 & Ho1 & _).
  destruct (click_result p (step (Click p) c) (step_synced _ _ Hc))
    as (Hf2 & Ho2 & _).
  rewrite Hf2, Ho2, Hf1.
  destruct (flagOf p (flags c)).
  - destruct p; split; reflexivity.
  - rewrite flagOf_only, bool_decide_eq_true_2 by reflexivity.
    split; reflexivity.
Qed.

(** X5.  A change of the queue length does to the panels what a click on
    the Search tab (new length zero) or on the Recommendation tab (any
    other length) would do: in particular it closes that panel when it is
    the open one.  An unchanged length changes nothing. *)
Theorem queue_change_acts_as_click
    (n : nat) (m : bool) (es : list Event) (n' : nat) :
  let c := run es (mount n m) in
  let c' := step (QueueChanged n') c in
  flags c'
  = (if bool_decide (n' = queueLength c) then flags c
     else if flagOf (autoPanel n') (flags c) then noPanel
          else only (autoPanel n'))
  /\ activePanel c'
     = (if bool_decide (n' = queueLength c) then activePanel c
        else Some (autoPanel n'))
  /\ isOpen c'
     = (if bool_decide (n' = queueLength c) then isOpen c
        else negb (flagOf (autoPanel n') (flags c))).
Proof.
  intros c c'. pose proof (reached_synced n m es) as Hc. fold c in Hc.
  clearbody c.
  destruct (queue_result n' c Hc) as (Hf & Ha). fold c' in Hf, Ha.
  split; [exact Hf|]. split; [exact Ha|].
  pose proof (step_synced (QueueChanged n') c Hc) as [_ Ho]. fold c' in Ho.
  rewrite Ho, Hf. destruct Hc as [_ Hc].
  case_bool_decide; [now rewrite Hc|].
  destruct (flagOf (autoPanel n') (flags c)); [reflexivity | apply anyOpen_only].
Qed.

(** X6.  Within one render the cells a handler writes depend only on the
    values its closure captured: called after another handler of the same
    render it leaves the cells it would have left alone, so the last call
    wins and a repeated call does not toggle twice. *)
Theorem last_handler_wins (p q : Panel) (cur : Flags) (c : Controller) :
  flags (activate q cur (activate p cur c)) = flags (activate q cur c)
  /\ activePanel (activate q cur (activate p cur c)) = Some q.
Proof.
  split.
  - apply flags_ext. intros r. now rewrite !activate_flags.
  - now destruct (activate_frame q cur (activate p cur c)) as (_&_&_&_&_&H).
Qed.

(** X7.  What the Workspace puts on the page in a reached state: the
    component of an open panel is always rendered; the Search panel is
    rendered exactly when its cell is [true], while any other panel stays
    rendered as long as it is the active one, open or not; never two
    panels at once. *)
Theorem rendered_panel (n : nat) (m : bool) (es : list Event) :
  let c := run es (mount n m) in
  (forall p, flagOf p (flags c) = true -> panelRendered p c = true)
  /\ panelRendered SEARCH c = toggleSearchPanel (flags c)
  /\ (forall p, p <> SEARCH ->
        panelRendered p c = bool_decide (activePanel c = Some p))
  /\ (forall p q, panelRendered p c = true -> panelRendered q c = true ->
        p = q).
Proof.
  intros c.
  assert (Hd : forall q, flagOf q (flags c)
                 = isOpen c && bool_decide (activePanel c = Some q))
    by (intros q; apply flags_determined;
        [apply reached_synced | apply reached_tidy]).
  clearbody c.
  assert (Hr : forall p, panelRendered p c = true -> activePanel c = Some p).
  { intros p H. destruct p; simpl in H;
      try apply andb_true_iff in H as [_ H];
      now apply bool_decide_eq_true in H. }
  split; [|split; [|split]].
  - intros p H. rewrite Hd in H. apply andb_true_iff in H as [Ho Ha].
    destruct p; simpl; rewrite ?Ho; exact Ha.
  - symmetry. apply (Hd SEARCH).
  - intros p Hp. destruct p; [congruence| reflexivity ..].
  - intros p q Hp%Hr Hq%Hr. congruence.
Qed.

End PanelRunProperties.

(** ** Search navigation beyond the first reload *)

Module SearchRunFacts.
Import SearchElement SearchElementFacts.

(** A string in which [c] occurs splits at the last occurrence. *)
Lemma split_last (s : string) (c : ascii) :
  JS.occurs c s = true ->
  exists d i, s = d +:+ String c i /\ JS.occurs c i = false.
Proof.
  induction s as [|a s IH]; [discriminate|].
  cbn [JS.occurs]. destruct (JS.occurs c s) eqn:Hs.
  - intros _. destruct (IH eq_refl) as (d & i & -> & Hi).
    exists (String a d), i. split; [reflexivity | exact Hi].
  - rewrite orb_false_r. intros Ha. apply Ascii.eqb_eq in Ha. subst a.
    exists EmptyString, s. split; [reflexivity | exact Hs].
Qed.

Lemma parseId_separator (d i : string) :
  JS.occurs "-" i = false -> parseId (d +:+ String "-" i) = (d, i).
Proof.
  intros Hi. unfold parseId.
  rewrite (JSFacts.lastIndexOf_separator d i "-" Hi).
  now rewrite JSFacts.slice_before_separator, JSFacts.slice_after_separator.
Qed.

Lemma parseId_plain (id : string) :
  JS.occurs "-" id = false -> parseId id = (JS.dropLast id, id).
Proof.
  intros H. unfold parseId. rewrite (JSFacts.lastIndexOf_absent id "-" H).
  change (-1 + 1) with 0.
  now rewrite JSFacts.slice_drop_last, JSFacts.slice_from_zero.
Qed.

Lemma prefix_app (d x : string) : String.prefix d (d +:+ x) = true.
Proof.
  induction d as [|a d IH]; [destruct x; reflexivity|].
  change (String a d +:+ x) with (String a (d +:+ x)).
  cbn [String.prefix].
  destruct (ascii_dec a a); [exact IH | congruence].
Qed.

Lemma prefix_dropLast (s : string) : String.prefix (JS.dropLast s) s = true.
Proof.
  induction s as [|a s IH]; [reflexivity|].
  destruct s as [|b s]; [reflexivity|].
  change (JS.dropLast (String a (String b s)))
    with (String a (JS.dropLast (String b s))).
  cbn [String.prefix]. destruct (ascii_dec a a); [exact IH | congruence].
Qed.

(** The state the handler leaves when the clicked result belongs to the
    document on screen. *)
Lemma handle_same_document (id d i : string) (st : State) :
  parseId id = (d, i) ->
  d = curDocName st ->
  handleSearchPanelClick id st
  = mkState (curDocName st) (curCategory st) (isDocLoaded st) i i true
      (dom st) (inFlight st)
      (trace st
       ++ Dispatch (setSearchedIndex i)
          :: scrollOf (getElementById ("L" +:+ i) (dom st))
          ++ [Dispatch (setFocusedState i)]).
Proof.
  intros Hp Hd. destruct st as [cd cc dl fi si ia dm inf tr].
  cbn [curDocName] in Hd. subst d.
  unfold handleSearchPanelClick. rewrite Hp.
  cbn [curDocName]. rewrite String.eqb_refl. cbn [negb].
  destruct (getElementById ("L" +:+ i) dm) as [el|] eqn:He;
    cbn; rewrite He;
    unfold dispatch, reduce, emit, setIsSearchActive, scrollIntoElementView;
    cbn; rewrite <- ?app_assoc; reflexivity.
Qed.

(** The effect as one record. *)
Lemma scrollEffect_eq (st : State) :
  scrollEffect st
  = if isIsSearchActive st && isDocLoaded st
    then mkState (curDocName st) (curCategory st) (isDocLoaded st)
           (focusedIndex st) (searchedIndex st) false (dom st) (inFlight st)
           (trace st
            ++ scrollOf (if JS.truthyN (curCategory st)
                         then getElementById ("L" +:+ focusedIndex st) (dom st)
                         else getElementById ("L" +:+ searchedIndex st) (dom st)))
    else st.
Proof.
  unfold scrollEffect. destruct (isIsSearchActive st && isDocLoaded st);
    [|reflexivity].
  now rewrite scrollIntoElementView_eq.
Qed.

(** What the settling of a pending request leaves, whatever the state it
    finds. *)
Lemma fetchSettled_fields (batched : bool) (k : nat) (newDom : gset string)
    (st : State) (r : Request) :
  inFlight st !! k = Some r ->
  let st' := fetchSettled batched k newDom st in
  focusedIndex st' = reqIndex r
  /\ curDocName st' = reqDocid r
  /\ searchedIndex st' = searchedIndex st
  /\ isDocLoaded st' = true
  /\ isIsSearchActive st' = false
  /\ inFlight st' = delete k (inFlight st)
  /\ dom st' = newDom
  /\ curCategory st' = curCategory st.
Proof.
  intros H st'. subst st'. destruct st as [cd cc dl fi si ia dm inf tr].
  cbn [inFlight searchedIndex curCategory] in *.
  unfold fetchSettled. cbn [inFlight]. rewrite H.
  cbn [curDocName curCategory isDocLoaded focusedIndex searchedIndex
       isIsSearchActive dom trace].
  unfold documentArrived, dispatch, render.
  cbn [emit reduce curDocName curCategory isDocLoaded focusedIndex
       searchedIndex isIsSearchActive dom trace inFlight].
  destruct batched; rewrite !scrollEffect_eq;
    cbn [emit reduce curDocName curCategory isDocLoaded focusedIndex
         searchedIndex isIsSearchActive dom trace inFlight andb];
    destruct ia, dl; cbn; repeat split; reflexivity.
Qed.

Lemma render_many_unloaded (n : nat) (st : State) :
  isDocLoaded st = false -> Nat.iter n render st = st.
Proof.
  intros H. induction n as [|n IH]; [reflexivity|].
  rewrite Nat.iter_succ, IH. now apply render_unloaded.
Qed.

Lemma click_other_document (id d i : string) (st : State) :
  parseId id = (d, i) ->
  d <> curDocName st ->
  click id st
  = mkState (curDocName st) (curCategory st) false (focusedIndex st) i true
      (dom st) (inFlight st ++ [mkRequest d id i])
      (trace st
       ++ Dispatch (setSearchedIndex i)
          :: scrollOf (getElementById ("L" +:+ i) (dom st))
          ++ [Dispatch (setIsDocLoaded false);
              Dispatch (fetchCertainDocument d id)]).
Proof.
  intros Hp Hd. unfold click.
  rewrite (handle_other_document id d i st Hp Hd).
  now apply render_unloaded.
Qed.

End SearchRunFacts.

Section SearchRunProperties.
Import SearchElement SearchElementFacts SearchRunFacts.

(** X8.  A click on a result of the document on screen dispatches no
    fetch and never touches the document-loaded flag: it records the index
    as searched and as focused, scrolls at once to ['L' + index] if that
    element exists and, when the document is loaded, a second time from
    the effect, which disarms the pending scroll; when it is not loaded the
    scroll stays pending. *)
Theorem click_same_document (id : string) (st : State) :
  (parseId id).1 = curDocName st ->
  let index := (parseId id).2 in
  let target := getElementById ("L" +:+ index) (dom st) in
  let st1 := click id st in
  inFlight st1 = inFlight st
  /\ isDocLoaded st1 = isDocLoaded st
  /\ curDocName st1 = curDocName st
  /\ searchedIndex st1 = index
  /\ focusedIndex st1 = index
  /\ isIsSearchActive st1 = negb (isDocLoaded st)
  /\ since st st1
     = Dispatch (setSearchedIndex index)
       :: scrollOf target
       ++ [Dispatch (setFocusedState index)]
       ++ (if isDocLoaded st then scrollOf target else []).
Proof.
  intros Hd index target st1. subst index target st1.
  destruct (parseId id) as [d i] eqn:Hp. cbn [fst snd] in *.
  unfold click, render.
  rewrite (handle_same_document id d i st Hp Hd), scrollEffect_eq.
  cbn [isIsSearchActive isDocLoaded curCategory focusedIndex searchedIndex
       dom trace curDocName inFlight andb].
  assert (Ht : (if JS.truthyN (curCategory st)
                then getElementById ("L" +:+ i) (dom st)
                else getElementById ("L" +:+ i) (dom st))
               = getElementById ("L" +:+ i) (dom st))
    by now destruct (JS.truthyN (curCategory st)).
  rewrite Ht. destruct st as [cd cc dl fi si ia dm inf tr].
  cbn [isIsSearchActive isDocLoaded curCategory focusedIndex searchedIndex
       dom trace curDocName inFlight].
  destruct dl;
    cbn [isIsSearchActive isDocLoaded curCategory focusedIndex searchedIndex
         dom trace curDocName inFlight negb];
    repeat (split; [reflexivity|]); apply since_app; cbn [trace];
    rewrite <- ?app_assoc; cbn; rewrite <- ?app_assoc, ?app_nil_r;
    reflexivity.
Qed.

Lemma click_same_document_witness :
  (parseId "docA-3").1 = curDocName showingDocA
  /\ inFlight (click "docA-3" showingDocA) = []
  /\ focusedIndex (click "docA-3" showingDocA) = "3"%string
  /\ isIsSearchActive (click "docA-3" showingDocA) = false.
Proof.
  assert (Hd : (parseId "docA-3").1 = curDocName showingDocA)
    by (vm_compute; reflexivity).
  split; [exact Hd|].
  destruct (click_same_document "docA-3" showingDocA Hd)
    as (H1 & _ & _ & _ & H5 & H6 & _).
  split; [exact H1|]. split; [|exact H6].
  rewrite H5. vm_compute. reflexivity.
Defined.

(** X9.  Parsing loses nothing when the identifier has a separator: the
    document id, a ['-'] and the element index put together give the
    identifier back. *)
Theorem parse_reassembles (id : string) :
  JS.occurs "-" id = true ->
  (parseId id).1 +:+ "-" +:+ (parseId id).2 = id.
Proof.
  intros H. destruct (split_last id "-" H) as (d & i & -> & Hi).
  now rewrite (parseId_separator d i Hi).
Qed.

Lemma parse_reassembles_witness :
  JS.occurs "-" "doc-A-12" = true
  /\ (parseId "doc-A-12").1 +:+ "-" +:+ (parseId "doc-A-12").2
     = "doc-A-12"%string.
Proof.
  split; [reflexivity|]. apply (parse_reassembles "doc-A-12"). reflexivity.
Defined.

(** X10.  Whatever the identifier, the parsed element index contains no
    ['-'] and the parsed document id is a prefix of the identifier. *)
Theorem parsed_parts (id : string) :
  JS.occurs "-" (parseId id).2 = false
  /\ String.prefix (parseId id).1 id = true.
Proof.
  destruct (JS.occurs "-" id) eqn:H.
  - destruct (split_last id "-" H) as (d & i & -> & Hi).
    rewrite (parseId_separator d i Hi). split; [exact Hi | apply prefix_app].
  - rewrite (parseId_plain id H). split; [exact H | apply prefix_dropLast].
Qed.

(** X11.  The pending-scroll effect fires at most once: it issues at most
    one scroll, leaves the store, the page and the requests in flight as
    they are, and running it again changes nothing. *)
Theorem scroll_effect_once (st : State) :
  let st' := scrollEffect st in
  scrollEffect st' = st'
  /\ (length (since st st') <= 1)%nat
  /\ curDocName st' = curDocName st
  /\ isDocLoaded st' = isDocLoaded st
  /\ focusedIndex st' = focusedIndex st
  /\ searchedIndex st' = searchedIndex st
  /\ dom st' = dom st
  /\ inFlight st' = inFlight st.
Proof.
  intros st'. subst st'. rewrite (scrollEffect_eq st).
  destruct (isIsSearchActive st && isDocLoaded st) eqn:E.
  - split; [now rewrite scrollEffect_eq|].
    split; [|repeat split].
    unfold since. cbn [trace]. rewrite drop_app_length.
    destruct (JS.truthyN (curCategory st));
      match goal with |- context [scrollOf ?e] => destruct e end;
      simpl; lia.
  - split; [now rewrite scrollEffect_eq, E|].
    split; [|repeat split].
    unfold since. rewrite drop_all. simpl. lia.
Qed.

(** X12.  After a click on a result of another document nothing scrolls
    until the fetch settles: any number of renders leaves the state as the
    click left it, with the scroll still pending. *)
Theorem pending_scroll_waits (id : string) (st : State) (n : nat) :
  (parseId id).1 <> curDocName st ->
  Nat.iter n render (click id st) = click id st
  /\ isIsSearchActive (click id st) = true
  /\ isDocLoaded (click id st) = false.
Proof.
  intros Hd. destruct (parseId id) as [d i] eqn:Hp. cbn [fst] in Hd.
  rewrite (click_other_document id d i st Hp Hd).
  split; [now apply render_many_unloaded | split; reflexivity].
Qed.

Lemma pending_scroll_waits_witness :
  (parseId "docB-3").1 <> curDocName showingDocA
  /\ Nat.iter 5 render (click "docB-3" showingDocA) = click "docB-3" showingDocA.
Proof.
  assert (Hd : (parseId "docB-3").1 <> curDocName showingDocA)
    by (vm_compute; discriminate).
  split; [exact Hd|].
  apply (pending_scroll_waits "docB-3" showingDocA 5 Hd).
Defined.

(** X13.  Whenever a pending request settles, in whatever state it finds
    the hook, its callback puts the focus on the index it captured at the
    click, sets the document-loaded flag, leaves the searched index alone
    and leaves no scroll pending; the request is removed from those in
    flight. *)
Theorem settled_request_takes_focus (batched : bool) (k : nat)
    (newDom : gset string) (st : State) (r : Request) :
  inFlight st !! k = Some r ->
  let st' := fetchSettled batched k newDom st in
  focusedIndex st' = reqIndex r
  /\ searchedIndex st' = searchedIndex st
  /\ isDocLoaded st' = true
  /\ isIsSearchActive st' = false
  /\ inFlight st' = delete k (inFlight st).
Proof.
  intros H.
  destruct (fetchSettled_fields batched k newDom st r H)
    as (H1 & _ & H3 & H4 & H5 & H6 & _).
  repeat split; assumption.
Qed.

Lemma settled_request_takes_focus_witness :
  inFlight (click "docB-3" showingDocA) !! 0%nat
  = Some (mkRequest "docB" "docB-3" "3")
  /\ focusedIndex (fetchSettled true 0 ∅ (click "docB-3" showingDocA))
     = "3"%string.
Proof.
  assert (H : inFlight (click "docB-3" showingDocA) !! 0%nat
              = Some (mkRequest "docB" "docB-3" "3"))
    by (vm_compute; reflexivity).
  split; [exact H|].
  now destruct (settled_request_takes_focus true 0 ∅ _ _ H) as (H1 & _).
Defined.

(** X14.  Nothing cancels a fetch in flight.  After two clicks on results
    of other documents, if the second request settles first and the first
    one afterwards, the focus ends on the element of the first click and
    its document is the current one, although the searched index is that
    of the second click. *)
Theorem stale_completion_overwrites_focus (batched : bool) (id1 id2 : string)
    (dom1 dom2 : gset string) (st : State) :
  (parseId id1).1 <> curDocName st ->
  (parseId id2).1 <> curDocName st ->
  let k := length (inFlight st) in
  let st2 := click id2 (click id1 st) in
  let st3 := fetchSettled batched (S k) dom2 st2 in
  let st4 := fetchSettled batched k dom1 st3 in
  focusedIndex st3 = (parseId id2).2
  /\ curDocName st3 = (parseId id2).1
  /\ focusedIndex st4 = (parseId id1).2
  /\ curDocName st4 = (parseId id1).1
  /\ searchedIndex st4 = (parseId id2).2
  /\ isDocLoaded st4 = true
  /\ inFlight st4 = inFlight st.
Proof.
  intros Hd1 Hd2 k st2 st3 st4.
  destruct (parseId id1) as [d1 i1] eqn:Hp1.
  destruct (parseId id2) as [d2 i2] eqn:Hp2. cbn [fst snd] in *.
  pose proof (click_other_document id1 d1 i1 st Hp1 Hd1) as E1.
  set (st1 := click id1 st) in *.
  assert (Hc1 : curDocName st1 = curDocName st) by now rewrite E1.
  assert (Hd2' : d2 <> curDocName st1) by now rewrite Hc1.
  pose proof (click_other_document id2 d2 i2 st1 Hp2 Hd2') as E2.
  fold st2 in E2.
  assert (Hin : inFlight st2
                = (inFlight st ++ [mkRequest d1 id1 i1])
                  ++ [mkRequest d2 id2 i2]).
  { rewrite E2. cbn [inFlight]. now rewrite E1. }
  assert (Hs2 : searchedIndex st2 = i2) by now rewrite E2.
  assert (Hk : S k = length (inFlight st ++ [mkRequest d1 id1 i1])).
  { rewrite length_app. subst k. simpl. lia. }
  assert (L2 : inFlight st2 !! S k = Some (mkRequest d2 id2 i2)).
  { rewrite Hin. now apply list_lookup_middle. }
  destruct (fetchSettled_fields batched (S k) dom2 st2 _ L2)
    as (F1 & F2 & F3 & _ & _ & F6 & _).
  fold st3 in F1, F2, F3, F6.
  rewrite Hin, Hk, delete_middle, app_nil_r in F6.
  assert (L3 : inFlight st3 !! k = Some (mkRequest d1 id1 i1)).
  { rewrite F6. now apply list_lookup_middle. }
  destruct (fetchSettled_fields batched k dom1 st3 _ L3)
    as (G1 & G2 & G3 & G4 & _ & G6 & _).
  fold st4 in G1, G2, G3, G4, G6.
  rewrite F6 in G6. subst k. rewrite delete_middle, app_nil_r in G6.
  clearbody st1 st2 st3 st4.
  repeat split; try assumption. now rewrite G3, F3.
Qed.

Lemma stale_completion_overwrites_focus_witness :
  (parseId "docB-3").1 <> curDocName showingDocA
  /\ (parseId "docC-0").1 <> curDocName showingDocA
  /\ focusedIndex
       (fetchSettled true 0 ∅
          (fetchSettled true 1 ∅
             (click "docC-0" (click "docB-3" showingDocA))))
     = "3"%string
  /\ searchedIndex
       (fetchSettled true 0 ∅
          (fetchSettled true 1 ∅
             (click "docC-0" (click "docB-3" showingDocA))))
     = "0"%string.
Proof.
  assert (H1 : (parseId "docB-3").1 <> curDocName showingDocA)
    by (vm_compute; discriminate).
  assert (H2 : (parseId "docC-0").1 <> curDocName showingDocA)
    by (vm_compute; discriminate).
  split; [exact H1|]. split; [exact H2|].
  destruct (stale_completion_overwrites_focus true "docB-3" "docC-0" ∅ ∅
              showingDocA H1 H2) as (_ & _ & F & _ & S & _).
  split; [exact F | exact S].
Defined.

End SearchRunProperties.

(** ** The search box *)

Module SearchInputFacts.
Import SearchInput.

Lemma forallb_snoc {A} (f : A -> bool) (l : list A) (x : A) :
  forallb f (l ++ [x]) = forallb f l && f x.
Proof. rewrite forallb_app. simpl. now rewrite andb_true_r. Qed.

Lemma handleSearch_trace (st : State) :
  trace (handleSearch st)
  = trace st ++ (if JS.truthy (searchInput st)
                 then [searchKeywords (searchInput st)] else [])
  /\ searchInput (handleSearch st) = searchInput st
  /\ inputValue (handleSearch st) = inputValue st
  /\ curCategory (handleSearch st) = curCategory st
  /\ categoryDeps (handleSearch st) = categoryDeps st.
Proof.
  unfold handleSearch. destruct (JS.truthy (searchInput st)); simpl;
    rewrite ?app_nil_r; repeat split.
Qed.

(** With the category unchanged since the last render the effect is idle. *)
Lemma box_render_quiet (st : State) :
  categoryDeps st = Some (curCategory st) -> render st = st.
Proof.
  destruct st as [s v c d t]. simpl. intros ->. unfold render.
  cbn [categoryDeps curCategory]. rewrite TogglePanelFacts.depsChanged_same.
  reflexivity.
Qed.

(** What a render adds when the category differs from the recorded one. *)
Lemma render_changed (st : State) :
  categoryDeps st <> Some (curCategory st) ->
  render st
  = mkState (searchInput st) (inputValue st) (curCategory st)
      (Some (curCategory st))
      (trace st ++ (if JS.truthyN (curCategory st) && JS.truthy (searchInput st)
                    then [searchKeywords (searchInput st)] else [])).
Proof.
  destruct st as [s v c d t]. cbn [categoryDeps curCategory]. intros H.
  unfold render. cbn [categoryDeps curCategory].
  assert (E : TogglePanel.depsChanged d c = true).
  { unfold TogglePanel.depsChanged. destruct d as [c'|]; [|reflexivity].
    rewrite bool_decide_eq_false_2 by congruence. reflexivity. }
  rewrite E. unfold categoryEffect, handleSearch, dispatch.
  cbn [curCategory searchInput inputValue categoryDeps trace].
  destruct (JS.truthyN c), (JS.truthy s); cbn; rewrite ?app_nil_r; reflexivity.
Qed.

Lemma box_render_deps (st : State) :
  categoryDeps (render st) = Some (curCategory (render st)).
Proof.
  destruct (decide (categoryDeps st = Some (curCategory st))) as [H|H].
  - now rewrite (box_render_quiet st H).
  - now rewrite (render_changed st H).
Qed.

Lemma step_deps (e : Event) (st : State) :
  categoryDeps (step e st) = Some (curCategory (step e st)).
Proof. destruct e; apply box_render_deps. Qed.

Lemma run_deps (es : list Event) (st : State) :
  categoryDeps st = Some (curCategory st) ->
  categoryDeps (run es st) = Some (curCategory (run es st)).
Proof.
  revert st. induction es as [|e es IH]; intros st H; [exact H|].
  simpl. apply IH, step_deps.
Qed.

Lemma reached_deps (ref : option string) (cat : JS.nullable) (es : list Event) :
  categoryDeps (run es (mount ref cat))
  = Some (curCategory (run es (mount ref cat))).
Proof. apply run_deps, box_render_deps. Qed.

Lemma render_keywords (st : State) :
  forallb hasKeyword (trace st) = true ->
  forallb hasKeyword (trace (render st)) = true.
Proof.
  intros H. destruct (decide (categoryDeps st = Some (curCategory st))) as [E|E].
  - now rewrite (box_render_quiet st E).
  - rewrite (render_changed st E). cbn [trace]. rewrite forallb_app, H.
    destruct (JS.truthyN (curCategory st)); [|reflexivity].
    cbn [andb]. destruct (JS.truthy (searchInput st)) eqn:Hs; [|reflexivity].
    simpl. now rewrite Hs.
Qed.

Lemma step_keywords (e : Event) (st : State) :
  forallb hasKeyword (trace st) = true ->
  forallb hasKeyword (trace (step e st)) = true.
Proof.
  intros H. destruct e as [v| | |c]; cbn [step]; apply render_keywords.
  - exact H.
  - unfold clearSearchInput, dispatch, setSearchInput.
    cbn [inputValue trace searchInput curCategory categoryDeps].
    destruct (inputValue st); cbn [trace]; now rewrite forallb_snoc, H.
  - destruct (handleSearch_trace st) as (-> & _). rewrite forallb_app, H.
    destruct (JS.truthy (searchInput st)) eqn:Hs; [|reflexivity].
    simpl. now rewrite Hs.
  - exact H.
Qed.

(** With the category unchanged the three buttons are their handlers. *)
Lemma step_handlers (st : State) (v : string) :
  categoryDeps st = Some (curCategory st) ->
  step (Typed v) st = handleSearchInputChange v st
  /\ step Cleared st = clearSearchInput st
  /\ step Searched st = handleSearch st.
Proof.
  intros H. cbn [step]. split; [|split]; apply box_render_quiet.
  - exact H.
  - destruct st as [s iv c d t]. cbn in H. subst d. now destruct iv.
  - destruct (handleSearch_trace st) as (_ & _ & _ & -> & ->). exact H.
Qed.

End SearchInputFacts.

Section SearchInputProperties.
Import SearchInput SearchInputFacts.

(** X15.  Whatever is typed, cleared, searched or selected, and in
    whatever order, no keyword search is ever dispatched with an empty
    keyword; mounting the hook dispatches nothing at all. *)
Theorem keyword_never_empty
    (ref : option string) (cat : JS.nullable) (es : list Event) :
  trace (mount ref cat) = []
  /\ forallb hasKeyword (trace (run es (mount ref cat))) = true.
Proof.
  assert (Hm : trace (mount ref cat) = []).
  { unfold mount. rewrite render_changed by discriminate. cbn.
    now rewrite andb_false_r. }
  split; [exact Hm|].
  assert (G : forall st, forallb hasKeyword (trace st) = true ->
                forallb hasKeyword (trace (run es st)) = true).
  { induction es as [|e es IH]; intros st H; [exact H|].
    simpl. apply IH, step_keywords, H. }
  apply G. now rewrite Hm.
Qed.

(** X16.  The search button sends what the box holds: after typing [v] it
    dispatches one keyword search for [v], or nothing when [v] is empty;
    after the clear button, which dispatches the reset of the results and
    empties the box and the input element, it dispatches nothing. *)
Theorem search_sends_box_content
    (ref : option string) (cat : JS.nullable) (es : list Event) (v : string) :
  let st := run es (mount ref cat) in
  trace (run [Typed v; Searched] st)
  = trace st ++ (if JS.truthy v then [searchKeywords v] else [])
  /\ trace (run [Cleared; Searched] st) = trace st ++ [resetSearchResults]
  /\ searchInput (run [Cleared; Searched] st) = ""%string
  /\ inputValue (run [Cleared; Searched] st)
     = (fun _ => ""%string) <$> inputValue st.
Proof.
  intros st. pose proof (reached_deps ref cat es) as Hq. fold st in Hq.
  clearbody st. cbn [run fold_left].
  destruct (step_handlers st v Hq) as (Ht & Hc & _).
  rewrite Ht, Hc.
  assert (Hq1 : categoryDeps (handleSearchInputChange v st)
                = Some (curCategory (handleSearchInputChange v st)))
    by exact Hq.
  assert (Hq2 : categoryDeps (clearSearchInput st)
                = Some (curCategory (clearSearchInput st))).
  { rewrite <- Hc. apply step_deps. }
  destruct (step_handlers _ v Hq1) as (_ & _ & ->).
  destruct (step_handlers _ v Hq2) as (_ & _ & ->).
  destruct st as [s iv c d t].
  unfold handleSearch, handleSearchInputChange, clearSearchInput,
    setSearchInput, dispatch.
  cbn [searchInput inputValue curCategory categoryDeps trace].
  destruct iv, (JS.truthy v);
    cbn; rewrite ?app_nil_r; repeat split; reflexivity.
Qed.

(** X17.  Selecting another category sends the keyword in the box again,
    provided the new category is not null and the box is not empty;
    a selection that leaves the category as it is sends nothing. *)
Theorem category_change_repeats_search
    (ref : option string) (cat : JS.nullable) (es : list Event)
    (cat' : JS.nullable) :
  let st := run es (mount ref cat) in
  trace (step (CategoryChanged cat') st)
  = trace st
    ++ (if bool_decide (cat' = curCategory st) then []
        else if JS.truthyN cat' && JS.truthy (searchInput st)
             then [searchKeywords (searchInput st)] else [])
  /\ searchInput (step (CategoryChanged cat') st) = searchInput st.
Proof.
  intros st. pose proof (reached_deps ref cat es) as Hq. fold st in Hq.
  clearbody st. destruct st as [s iv c d t]. cbn [categoryDeps curCategory] in Hq.
  subst d. cbn [step setCurCategory searchInput inputValue curCategory
                categoryDeps trace].
  case_bool_decide as E.
  - subst cat'. rewrite box_render_quiet by reflexivity. cbn.
    now rewrite app_nil_r.
  - rewrite render_changed by (cbn; congruence). cbn. split; reflexivity.
Qed.

End SearchInputProperties.

(** ** The upload form over whole runs *)

Module LoadDocFlowFacts.
Import LoadDoc LoadDocFlow.

(** What a submit does, in the terms of the two cells. *)
Lemma handleLoadDoc_eq (st : State) :
  handleLoadDoc st
  = match datasetName st, file st with
    | String _ _, File _ =>
        let formData : FormData :=
          [("file"%string, FileValue (file st));
           ("dataset_name"%string, TextValue (datasetName st))] in
        mkState (datasetName st) (file st) (uploading st ++ [formData])
          (trace st ++ [AddDocuments formData])
    | _, _ =>
        mkState (datasetName st) (file st) (uploading st)
          (trace st ++ [Toast "Please fill out all the required fields!"])
    end.
Proof.
  destruct st as [name f up tr]. unfold handleLoadDoc.
  cbn [datasetName file uploading trace].
  destruct name, f; reflexivity.
Qed.

(** What the settling of an upload does. *)
Lemma uploadSettled_eq (k : nat) (st : State) :
  uploadSettled k st
  = match uploading st !! k with
    | None => st
    | Some formData =>
        mkState "" (file st) (delete k (uploading st))
          (trace st ++ [UploadSettled formData; GetDatasetsAPI;
                        Toast "The new dataset has been created"])
    end.
Proof.
  unfold uploadSettled. destruct (uploading st !! k); [|reflexivity].
  unfold notify, emit, setDatasetName. cbn. now rewrite <- !app_assoc.
Qed.

Lemma count_app (f : Event -> bool) (st : State) (name : string)
    (fc : FileCell) (up : list FormData) (l : list Event) :
  count f (mkState name fc up (trace st ++ l))
  = (count f st + length (List.filter f l))%nat.
Proof. unfold count. cbn [trace]. now rewrite List.filter_app, length_app. Qed.

Lemma step_balanced (a : Action) (st : State) :
  balanced st -> balanced (step a st).
Proof.
  intros (H1 & H2 & H3). destruct a as [v|f| |k]; cbn [step].
  - exact (conj H1 (conj H2 H3)).
  - exact (conj H1 (conj H2 H3)).
  - rewrite handleLoadDoc_eq. unfold balanced.
    destruct (datasetName st), (file st); cbv zeta; rewrite !count_app;
      cbn [uploading]; rewrite ?length_app; simpl; lia.
  - rewrite uploadSettled_eq. destruct (uploading st !! k) eqn:E;
      [|exact (conj H1 (conj H2 H3))].
    unfold balanced. rewrite !count_app. cbn [uploading].
    rewrite length_delete by (rewrite E; eauto).
    apply lookup_lt_Some in E. simpl. lia.
Qed.

Lemma step_complete (a : Action) (st : State) :
  forallb uploadsComplete (trace st) = true ->
  forallb uploadsComplete (trace (step a st)) = true.
Proof.
  intros H. destruct a as [v|f| |k]; cbn [step].
  - exact H.
  - exact H.
  - rewrite handleLoadDoc_eq.
    destruct (datasetName st), (file st); cbv zeta; cbn [trace];
      rewrite forallb_app, H; reflexivity.
  - rewrite uploadSettled_eq. destruct (uploading st !! k); [|exact H].
    cbn [trace]. rewrite forallb_app, H. reflexivity.
Qed.

End LoadDocFlowFacts.

Section LoadDocFlowProperties.
Import LoadDoc LoadDocFlow LoadDocFlowFacts.

(** X18.  What is typed and chosen is what is sent: after a non-empty
    dataset name and a file have been entered, a submit dispatches one
    upload whose form holds that file and that name, in this order, and
    shows no toast. *)
Theorem submit_sends_what_was_entered (v f : string) (st : State) :
  JS.truthy v = true ->
  let formData : FormData :=
    [("file"%string, FileValue (File f));
     ("dataset_name"%string, TextValue v)] in
  let st' := run [NameTyped v; FileChosen (File f); Submitted] st in
  trace st' = trace st ++ [AddDocuments formData]
  /\ uploading st' = uploading st ++ [formData]
  /\ datasetName st' = v.
Proof.
  intros Hv formData st'. subst st' formData.
  cbn [run fold_left step]. rewrite handleLoadDoc_eq.
  destruct st as [name fc up tr].
  unfold handleFileChange, handleInputChange, setFile, setDatasetName.
  cbn [datasetName file uploading trace].
  destruct v; [discriminate|]. repeat split.
Qed.

Lemma submit_sends_what_was_entered_witness :
  JS.truthy "news" = true
  /\ trace (run [NameTyped "news"; FileChosen (File "news.csv"); Submitted]
              initial)
     = [AddDocuments [("file"%string, FileValue (File "news.csv"));
                      ("dataset_name"%string, TextValue "news")]].
Proof.
  split; [reflexivity|].
  now destruct (submit_sends_what_was_entered "news" "news.csv" initial
                  eq_refl) as (H & _).
Defined.

(** X19.  Once an upload has settled the dataset name is empty again while
    the file stays chosen, so a second submit without retyping the name
    takes the missing-field branch: it shows the toast asking for the
    required fields and dispatches no upload. *)
Theorem resubmit_needs_name_again (st : State) :
  missingField st = false ->
  let st2 := uploadSettled (length (uploading st)) (handleLoadDoc st) in
  let st3 := handleLoadDoc st2 in
  datasetName st2 = ""%string
  /\ file st2 = file st
  /\ trace st3
     = trace st2 ++ [Toast "Please fill out all the required fields!"]
  /\ uploading st3 = uploading st.
Proof.
  intros Hm st2 st3. subst st3 st2.
  rewrite (handleLoadDoc_eq st). unfold missingField in Hm.
  destruct st as [name fc up tr]. cbn [datasetName file uploading trace] in *.
  destruct name as [|a name]; [discriminate|].
  destruct fc as [| |f]; try discriminate. cbv zeta.
  rewrite uploadSettled_eq. cbn [uploading].
  rewrite list_lookup_middle by reflexivity.
  rewrite delete_middle, app_nil_r, handleLoadDoc_eq.
  cbn [datasetName file uploading trace]. repeat split.
Qed.

Lemma resubmit_needs_name_again_witness :
  missingField filledForm = false
  /\ uploading (handleLoadDoc (uploadSettled 0 (handleLoadDoc filledForm))) = []
  /\ datasetName (uploadSettled 0 (handleLoadDoc filledForm)) = ""%string.
Proof.
  split; [reflexivity|].
  destruct (resubmit_needs_name_again filledForm eq_refl) as (H1 & _ & _ & H4).
  split; [exact H4 | exact H1].
Defined.

(** X20.  Whatever the user types, chooses and submits, and whenever the
    uploads settle, no upload is ever dispatched with a field missing:
    every form sent holds a real file and a non-empty dataset name. *)
Theorem uploads_always_complete (acts : list Action) :
  forallb uploadsComplete (trace (run acts initial)) = true.
Proof.
  assert (G : forall st, forallb uploadsComplete (trace st) = true ->
                forallb uploadsComplete (trace (run acts st)) = true).
  { induction acts as [|a acts IH]; intros st H; [exact H|].
    simpl. apply IH, step_complete, H. }
  apply G. reflexivity.
Qed.

(** X21.  Every upload dispatched is either still in flight or has
    settled, and each settled upload has brought exactly one refresh of
    the dataset list and one confirmation toast; a submit with a missing
    field and a settle event for no pending upload change none of these
    counts. *)
Theorem uploads_accounted (acts : list Action) :
  let st := run acts initial in
  count isUpload st = (length (uploading st) + count isSettled st)%nat
  /\ count isConfirmation st = count isSettled st
  /\ count isRefresh st = count isSettled st.
Proof.
  assert (G : forall st, balanced st -> balanced (run acts st)).
  { induction acts as [|a acts IH]; intros st H; [exact H|].
    simpl. apply IH, step_balanced, H. }
  apply G. repeat split.
Qed.

End LoadDocFlowProperties.

(** ** The auto-activation effect at a change of the queue length *)

Module AutoActivationFacts.
Import TogglePanel TogglePanelFacts Workspace PanelRunFacts.

(** Only the Search handler touches the focus, and only when the ref is
    attached. *)
Lemma activate_focus (p : Panel) (cur : Flags) (c : Controller) :
  inputFocused (activate p cur c)
  = (if bool_decide (p = SEARCH) && inputMounted c then true
     else inputFocused c).
Proof.
  destruct p; unfold_handlers; simpl; destruct (inputMounted c); reflexivity.
Qed.

Lemma render_focus_kept (c : Controller) :
  lengthDeps c = Some (queueLength c) ->
  inputFocused (render c) = inputFocused c.
Proof.
  destruct c as [f a n o m fo ld fd l]. simpl. intros ->.
  unfold render. cbn [lengthDeps flagDeps queueLength flags].
  rewrite depsChanged_same. unfold_render. simpl.
  repeat case_match; reflexivity.
Qed.

Lemma render_auto_focus (c : Controller) :
  depsChanged (lengthDeps c) (queueLength c) = true ->
  inputFocused (render c)
  = inputFocused (activate (autoPanel (queueLength c)) (flags c) c).
Proof.
  destruct c as [f a n o m fo ld fd l].
  cbn [lengthDeps queueLength flags]. intros H.
  unfold render. cbn [lengthDeps flagDeps queueLength flags]. rewrite H.
  unfold autoPanel. destruct (Nat.eqb n 0) eqn:E;
    unfold autoActivateEffect, logEffect; cbn [queueLength]; rewrite E;
    unfold_render; simpl; repeat case_match; reflexivity.
Qed.

Lemma autoPanel_handler (n : nat) :
  activate (autoPanel n)
  = (if Nat.eqb n 0 then activateSearchPanel else activateRecToLabelPanel).
Proof. unfold autoPanel. destruct (Nat.eqb n 0); reflexivity. Qed.

(** A change of the queue length leaves the cells, the active panel and the
    focus as a call of the handler the effect picks leaves them. *)
Lemma queue_rerun (n' : nat) (c : Controller) :
  synced c ->
  n' <> queueLength c ->
  let handler :=
    if Nat.eqb n' 0 then activateSearchPanel else activateRecToLabelPanel in
  flags (step (QueueChanged n') c) = flags (handler (flags c) c)
  /\ activePanel (step (QueueChanged n') c) = activePanel (handler (flags c) c)
  /\ inputFocused (step (QueueChanged n') c)
     = inputFocused (handler (flags c) c).
Proof.
  intros [[Hl _] _] Hne handler. subst handler.
  rewrite <- autoPanel_handler. unfold step. rewrite settle_two.
  set (c0 := setQueueLength n' c).
  assert (Hc : depsChanged (lengthDeps c0) (queueLength c0) = true).
  { unfold c0, setQueueLength. cbn [lengthDeps queueLength]. rewrite Hl.
    unfold depsChanged. rewrite bool_decide_eq_false_2 by congruence.
    reflexivity. }
  rewrite (render_flags_kept (render c0)) by apply render_length_quiet.
  rewrite (render_activePanel_kept (render c0)) by apply render_length_quiet.
  rewrite (render_focus_kept (render c0)) by apply render_length_quiet.
  destruct (render_auto c0 Hc) as [Hf Ha].
  rewrite Hf, Ha, (render_auto_focus c0 Hc).
  change (queueLength c0) with n'. change (flags c0) with (flags c).
  split; [|split].
  - apply flags_ext. intros q. now rewrite !activate_flags.
  - now destruct (activate_frame (autoPanel n') (flags c) c) as (_&_&_&_&_&->).
  - rewrite !activate_focus. reflexivity.
Qed.

End AutoActivationFacts.

Section AutoActivationClaim.
Import TogglePanel TogglePanelFacts Workspace PanelRunFacts AutoActivationFacts.

(** C3, amended.  At mount the effect runs once and activates the Search
    panel when the queue is empty, the Recommendation panel otherwise.
    Afterwards it runs once more at each change of the queue length, and
    at no other event; a re-run calls the Search handler when the new
    length is zero and the Recommendation handler otherwise, so that the
    cells, the active panel and the focus are those this call leaves.  A
    click leaves the cells of its own handler, and a change of the ref or
    an unchanged length leaves the cells and the active panel alone. *)
Theorem auto_activation_keyed_on_length
    (n : nat) (m : bool) (es : list Event) (e : Event) :
  let c := run es (mount n m) in
  let handler (k : nat) :=
    if Nat.eqb k 0 then activateSearchPanel else activateRecToLabelPanel in
  flags (mount n m) = only (if Nat.eqb n 0 then SEARCH else RCMD)
  /\ activePanel (mount n m) = Some (if Nat.eqb n 0 then SEARCH else RCMD)
  /\ autoRuns (mount n m) = 1%nat
  /\ autoRuns (step e c)
     = (autoRuns c
        + match e with
          | QueueChanged n' => if bool_decide (n' = queueLength c) then 0 else 1
          | _ => 0
          end)%nat
  /\ match e with
     | QueueChanged n' =>
         if bool_decide (n' = queueLength c)
         then flags (step e c) = flags c
              /\ activePanel (step e c) = activePanel c
         else flags (step e c) = flags (handler n' (flags c) c)
              /\ activePanel (step e c) = activePanel (handler n' (flags c) c)
              /\ inputFocused (step e c)
                 = inputFocused (handler n' (flags c) c)
     | Click p =>
         flags (step e c) = flags (activate p (flags c) c)
         /\ activePanel (step e c) = Some p
     | RefChanged b =>
         flags (step e c) = flags c
         /\ activePanel (step e c) = activePanel c
     end.
Proof.
  intros c handler. destruct (mount_flags n m) as [Hf Ha].
  pose proof (reached_synced n m es) as Hs. fold c in Hs. clearbody c.
  split; [exact Hf|]. split; [exact Ha|]. split; [|split].
  - unfold mount. now rewrite settle_autoRuns.
  - destruct Hs as [[Hl _] _].
    destruct e as [p|n'|b]; unfold step; rewrite settle_autoRuns.
    + destruct (activate_frame p (flags c) c) as (Hq & _ & Hd & _ & Hg & _).
      rewrite Hq, Hd, Hl, depsChanged_same.
      unfold autoRuns. now rewrite Hg.
    + simpl. rewrite Hl. unfold depsChanged.
      unfold autoRuns, setQueueLength; simpl.
      rewrite (bool_decide_ext (queueLength c = n') (n' = queueLength c))
        by (split; congruence).
      now destruct (bool_decide (n' = queueLength c)).
    + simpl. now rewrite Hl, depsChanged_same.
  - destruct e as [p|n'|b].
    + destruct (click_result p c Hs) as (H1 & _ & H3).
      split; [|exact H3]. now rewrite H1, handler_outcome.
    + case_bool_decide as E.
      * destruct (queue_result n' c Hs) as (H1 & H2).
        rewrite bool_decide_eq_true_2 in H1, H2 by exact E. now split.
      * exact (queue_rerun n' c Hs E).
    + exact (ref_result b c Hs).
Qed.

End AutoActivationClaim.

(** ** Scrolls and the document-loaded flag over whole runs *)

Module ReloadRunFacts.
Import SearchElement SearchElementFacts SearchRunFacts SearchRuns.

Lemma loadedAfter_app (l : bool) (t u : list Event) :
  loadedAfter l (t ++ u) = loadedAfter (loadedAfter l t) u.
Proof.
  revert l. induction t as [|e t IH]; intros l; [reflexivity|].
  destruct e as [[j|b|j|x y]|j|x]; simpl; apply IH.
Qed.

Lemma gated_app (l a : bool) (t u : list Event) :
  effectScrollsGated l a (t ++ u)
  = effectScrollsGated l a t
    && effectScrollsGated (loadedAfter l t) (handlerTurn a t) u.
Proof.
  revert l a. induction t as [|e t IH]; intros l a; [reflexivity|].
  destruct e as [[j|b|j|x y]|j|x]; simpl; rewrite ?IH; try reflexivity.
  now rewrite andb_assoc.
Qed.

Lemma continues_refl (st : State) : continues st st.
Proof. exists []. rewrite app_nil_r. repeat split. Qed.

Lemma continues_trans (st st' st'' : State) :
  continues st st' -> continues st' st'' -> continues st st''.
Proof.
  intros (t & Ht & Gt & Lt) (u & Hu & Gu & Lu).
  exists (t ++ u). split; [|split].
  - now rewrite Hu, Ht, app_assoc.
  - intros a. now rewrite gated_app, Gt, Lt, Gu.
  - now rewrite loadedAfter_app, Lt.
Qed.

(** The effect scrolls only when the flag is [true]. *)
Lemma render_continues (st : State) : continues st (render st).
Proof.
  unfold render. rewrite scrollEffect_eq.
  destruct (isIsSearchActive st && isDocLoaded st) eqn:E;
    [|apply continues_refl].
  apply andb_true_iff in E as [_ El].
  eexists. split; [reflexivity|]. cbn [isDocLoaded]. rewrite El.
  match goal with |- context [scrollOf ?e] => destruct e end;
    split; try (intros a; simpl; now rewrite ?orb_true_r); reflexivity.
Qed.

Lemma click_continues (id : string) (st : State) : continues st (click id st).
Proof.
  destruct (parseId id) as [d i] eqn:Hp.
  destruct (String.eqb d (curDocName st)) eqn:E.
  - apply String.eqb_eq in E.
    apply (continues_trans _ (handleSearchPanelClick id st));
      [|apply render_continues].
    rewrite (handle_same_document id d i st Hp E).
    eexists. split; [reflexivity|]. cbn [isDocLoaded].
    destruct (getElementById ("L" +:+ i) (dom st));
      split; try (intros a); reflexivity.
  - apply String.eqb_neq in E.
    rewrite (click_other_document id d i st Hp E).
    eexists. split; [reflexivity|]. cbn [isDocLoaded].
    destruct (getElementById ("L" +:+ i) (dom st));
      split; try (intros a); reflexivity.
Qed.

Lemma settle_continues (batched : bool) (k : nat) (newDom : gset string)
    (st : State) :
  continues st (fetchSettled batched k newDom st).
Proof.
  destruct (inFlight st !! k) as [r|] eqn:H.
  - destruct st as [cd cc dl fi si ia dm inf tr].
    cbn [inFlight] in H. unfold fetchSettled. cbn [inFlight]. rewrite H.
    cbn [curDocName curCategory isDocLoaded focusedIndex searchedIndex
         isIsSearchActive dom trace].
    unfold documentArrived, dispatch, render.
    cbn [emit reduce curDocName curCategory isDocLoaded focusedIndex
         searchedIndex isIsSearchActive dom trace inFlight].
    destruct batched; rewrite !scrollEffect_eq;
      cbn [emit reduce curDocName curCategory isDocLoaded focusedIndex
           searchedIndex isIsSearchActive dom trace inFlight andb];
      destruct ia, dl;
      cbn [emit reduce curDocName curCategory isDocLoaded focusedIndex
           searchedIndex isIsSearchActive dom trace inFlight andb];
      rewrite ?scrollEffect_eq;
      cbn [emit reduce curDocName curCategory isDocLoaded focusedIndex
           searchedIndex isIsSearchActive dom trace inFlight andb];
      unfold continues; cbn [trace isDocLoaded]; rewrite <- ?app_assoc;
      (eexists; split; [reflexivity|]);
      destruct (JS.truthyN cc);
      repeat match goal with
             | |- context [getElementById ?x ?y] =>
                 destruct (getElementById x y)
             end;
      split; try (intros a); reflexivity.
  - unfold fetchSettled. rewrite H. apply continues_refl.
Qed.

Lemma step_continues (i : Input) (st : State) : continues st (step i st).
Proof.
  destruct i as [id|b k d|]; cbn [step];
    [apply click_continues | apply settle_continues | apply render_continues].
Qed.

Lemma run_continues (inputs : list Input) (st : State) :
  continues st (run inputs st).
Proof.
  revert st. induction inputs as [|i inputs IH]; intros st;
    [apply continues_refl|].
  cbn [run fold_left]. apply (continues_trans _ (step i st));
    [apply step_continues | apply IH].
Qed.

End ReloadRunFacts.

Section ReloadClaim.
Import SearchElement SearchElementFacts SearchRunFacts SearchRuns ReloadRunFacts.

(** C2, amended.  A click on a result of another document, made while the
    document-loaded flag is [true] and followed, after any number of
    renders but no other click, by the settling of its fetch: the handler
    first scrolls to the element ['L' + index] of the document on screen
    if there is one, then takes the flag to [false] and, when the fetch
    has settled, back to [true]; in this run no scroll happens while the
    flag is [false], and the scroll the effect performs comes after the
    flag has returned to [true].  In every run of clicks, settled fetches
    and renders, from any state, the effect never scrolls while the flag
    is [false]: a scroll made while it is [false] is the immediate scroll
    of a click handler, which the flag does not gate. *)
Theorem scroll_waits_for_reload (batched : bool) (id : string)
    (newDom : gset string) (st : State) (n : nat) :
  isDocLoaded st = true ->
  (parseId id).1 <> curDocName st ->
  let docid := (parseId id).1 in
  let index := (parseId id).2 in
  let st1 := click id st in
  let st2 :=
    fetchSettled batched (length (inFlight st)) newDom (Nat.iter n render st1) in
  isDocLoaded st1 = false
  /\ isDocLoaded st2 = true
  /\ loadedWrites (since st st2) = [false; true]
  /\ noScrollWhileUnloaded true (since st st2) = true
  /\ since st st1
     = Dispatch (setSearchedIndex index)
       :: scrollOf (getElementById ("L" +:+ index) (dom st))
       ++ [Dispatch (setIsDocLoaded false);
           Dispatch (fetchCertainDocument docid id)]
  /\ since st1 st2
     = [Fulfilled docid; Dispatch (setFocusedState index);
        Dispatch (setIsDocLoaded true)]
       ++ scrollOf (getElementById ("L" +:+ index) newDom)
  /\ (forall (inputs : list Input) (s : State),
        effectScrollsGated (isDocLoaded s) false (since s (run inputs s))
        = true).
Proof.
  intros Hl Hd docid index st1 st2.
  destruct (parseId id) as [d i] eqn:Hp. simpl in Hd, docid, index.
  subst docid index.
  assert (H1 : st1 = handleSearchPanelClick id st).
  { unfold st1, click. apply render_unloaded.
    now rewrite (handle_other_document id d i st Hp Hd). }
  pose proof (handle_other_document id d i st Hp Hd) as H1'.
  rewrite <- H1 in H1'.
  assert (Hn : Nat.iter n render st1 = st1).
  { apply render_many_unloaded. now rewrite H1'. }
  subst st2. rewrite Hn.
  set (st2 := fetchSettled batched (length (inFlight st)) newDom st1).
  pose proof (settled_other_document batched id d i newDom st Hp Hd) as H2.
  rewrite <- H1 in H2. fold st2 in H2.
  assert (T1 : since st st1
               = Dispatch (setSearchedIndex i)
                 :: scrollOf (getElementById ("L" +:+ i) (dom st))
                 ++ [Dispatch (setIsDocLoaded false);
                     Dispatch (fetchCertainDocument d id)])
    by (apply since_app; now rewrite H1').
  assert (T2 : since st1 st2
               = [Fulfilled d; Dispatch (setFocusedState i);
                  Dispatch (setIsDocLoaded true)]
                 ++ scrollOf (getElementById ("L" +:+ i) newDom))
    by (apply since_app; now rewrite H2).
  assert (T : since st st2 = since st st1 ++ since st1 st2).
  { rewrite T1, T2. apply since_app. rewrite H2. cbn [trace].
    rewrite H1'. cbn [trace]. now rewrite <- !app_assoc. }
  split; [now rewrite H1'|]. split; [now rewrite H2|].
  clearbody st1 st2.
  rewrite T, T1, T2.
  split; [|split; [|split; [|split]]].
  - destruct (getElementById ("L" +:+ i) (dom st)),
             (getElementById ("L" +:+ i) newDom); reflexivity.
  - destruct (getElementById ("L" +:+ i) (dom st)),
             (getElementById ("L" +:+ i) newDom); reflexivity.
  - reflexivity.
  - reflexivity.
  - intros inputs s.
    destruct (run_continues inputs s) as (added & Ht & Hg & _).
    rewrite (since_app s _ added Ht). apply Hg.
Qed.

Lemma scroll_waits_for_reload_witness :
  isDocLoaded showingDocA = true
  /\ (parseId "docB-3").1 <> curDocName showingDocA
  /\ isDocLoaded (click "docB-3" showingDocA) = false
  /\ isDocLoaded
       (fetchSettled false 0 {[ "L3"%string ]}
          (Nat.iter 2 render (click "docB-3" showingDocA)))
     = true
  /\ noScrollWhileUnloaded true
       (since showingDocA
          (fetchSettled false 0 {[ "L3"%string ]}
             (Nat.iter 2 render (click "docB-3" showingDocA))))
     = true.
Proof.
  assert (Hd : (parseId "docB-3").1 <> curDocName showingDocA)
    by (vm_compute; discriminate).
  split; [reflexivity|]. split; [exact Hd|].
  destruct (scroll_waits_for_reload false "docB-3" {[ "L3"%string ]}
              showingDocA 2 eq_refl Hd) as (H1 & H2 & _ & H4 & _).
  split; [exact H1|]. split; [exact H2 | exact H4].
Defined.

End ReloadClaim.
